(** * Registration and credential sign-in: the code of
      [api/register] (POST), [api/auth/[...nextauth]/route.js]
      (authorize, callbacks.jwt, callbacks.session) and
      [auth/register/page.jsx] (onSubmit), embedded and verified. *)

From Stdlib Require Import ZArith NArith Ascii String List Lia.
From stdpp Require Import base option gmap strings list.

Local Open Scope string_scope.
Local Open Scope Z_scope.

(** ** JavaScript values *)

(** The scalar values a JSON field, a token claim or a column can hold.
    Numbers are the integer-valued ones: the code only ever tests a number
    for truthiness. Arrays and objects as field values are not represented:
    an object put where the storage client expects a string would be read by
    it as a filter, and no statement below speaks of such a request. *)
Inductive jsval : Type :=
  | JUndefined
  | JNull
  | JBool (b : bool)
  | JNum (n : Z)
  | JStr (s : string).

#[global] Instance jsval_eq_dec : EqDecision jsval.
Proof. solve_decision. Defined.

(** ToBoolean: what [if (v)], [!v] and [v || w] test. *)
Definition truthy (v : jsval) : bool :=
  match v with
  | JUndefined | JNull => false
  | JBool b => b
  | JNum n => negb (n =? 0)
  | JStr s => negb (bool_decide (s = ""))
  end.

(** A plain object with scalar properties. *)
Abbreviation obj := (gmap string jsval).

(** [o.k]: a property that is not there reads as undefined. *)
Definition prop (o : obj) (k : string) : jsval := default JUndefined (o !! k).

(** [o?.k] on an object that may be null or undefined. *)
Definition opt_prop (o : option obj) (k : string) : jsval :=
  match o with
  | Some o' => prop o' k
  | None => JUndefined
  end.

(** A string that may be null or undefined ([credentials?.email],
    [user.displayName], [user?.passwordHash]). *)
Definition str_truthy (s : option string) : bool :=
  match s with
  | Some s' => negb (bool_decide (s' = ""))
  | None => false
  end.

(** [a ?? b] on nullable strings. *)
Definition nullish (a : option string) (b : string) : string :=
  match a with
  | Some s => s
  | None => b
  end.

(** ** Effects: state that survives a throw *)

Inductive exn : Type := Exn (name : string).

Inductive outcome (A : Type) : Type :=
  | Value (a : A)
  | Thrown (e : exn).
Arguments Value {A} a.
Arguments Thrown {A} e.

(** A computation over a mutable state [S] that returns or throws. What it
    wrote before throwing stays written. *)
Definition Eff (S A : Type) : Type := S → outcome A * S.

Definition run {S A} (c : Eff S A) (s : S) : outcome A * S := c s.

Definition ret {S A} (a : A) : Eff S A := λ s, (Value a, s).

Definition bind {S A B} (c : Eff S A) (f : A → Eff S B) : Eff S B := λ s,
  match c s with
  | (Value a, s') => f a s'
  | (Thrown e, s') => (Thrown e, s')
  end.

Declare Scope eff_scope.
Delimit Scope eff_scope with eff.
Bind Scope eff_scope with Eff.

Notation "x <- c ;; k" := (bind c (λ x, k))
  (at level 100, c at next level, right associativity) : eff_scope.
Notation "c ;; k" := (bind c (λ _, k))
  (at level 100, right associativity) : eff_scope.

Local Open Scope eff_scope.

Definition throw {S A} (e : exn) : Eff S A := λ s, (Thrown e, s).

Definition modify {S} (f : S → S) : Eff S unit := λ s, (Value tt, f s).

Definition gets {S A} (f : S → A) : Eff S A := λ s, (Value (f s), s).

Definition skip {S} : Eff S unit := ret tt.

(** [try { c } catch (e) { h e }] *)
Definition try_catch {S A} (c : Eff S A) (h : exn → Eff S A) : Eff S A := λ s,
  match c s with
  | (Value a, s') => (Value a, s')
  | (Thrown e, s') => h e s'
  end.

(** [try { c } finally { f }], with [f] a block that neither returns nor
    throws. *)
Definition finally {S A} (c : Eff S A) (f : S → S) : Eff S A := λ s,
  match c s with
  | (r, s') => (r, f s')
  end.

(** ** The user table *)

Module User.
(** A row of the user model: the columns the code reads and writes. *)
Record t : Type := mk {
  id : jsval;
  email : string;
  username : string;
  displayName : option string;
  passwordHash : option string;
}.
End User.

Inductive prisma_call : Type :=
  | CallFindFirst
  | CallFindUnique
  | CallCreate.

(** The storage as the handlers see it: the rows in insertion order and the
    client calls made so far. *)
Record Db : Type := mkDb {
  rows : list User.t;
  calls : list prisma_call;
}.

Definition log_call (c : prisma_call) : Eff Db unit :=
  modify (λ db, mkDb (rows db) (calls db ++ [c])).

Definition same_email (e : string) (u : User.t) : bool :=
  bool_decide (User.email u = e).

Definition same_username (n : string) (u : User.t) : bool :=
  bool_decide (User.username u = n).

Definition clashes (e n : string) (u : User.t) : bool :=
  same_email e u || same_username n u.

(** What the application does not define itself. *)
Class Bcrypt : Type := {
  (** [bcrypt.hash(plaintext, rounds)], with the salt it draws made explicit *)
  bcrypt_hash : string → nat → string → string;
  (** [bcrypt.compare(plaintext, hash)] *)
  bcrypt_compare : string → string → bool;
}.

Class Schema : Type := {
  (** the default the schema gives the [id] column of a new row *)
  new_id : list User.t → jsval;
  (** whether the schema declares [email] and [username] unique, so that the
      storage refuses an insert that would repeat one *)
  unique_constraint : bool;
}.

(** ** Requests and responses of the registration endpoint *)

(** What [req.json()] gives. *)
Inductive req_body : Type :=
  | BodyUnparsable                    (* req.json() rejects *)
  | BodyNull                          (* the JSON text null *)
  | BodyObject (fields : obj)         (* a JSON object *)
  | BodyOther.                        (* a JSON primitive or array *)

Record Request : Type := mkRequest {
  body : req_body;
  salt : string;     (* the salt bcrypt draws while serving this request *)
}.

Inductive payload : Type :=
  | ErrorPayload (error : string)
  | UserPayload (id : jsval) (email username : string).

Record Response : Type := mkResponse {
  status : nat;
  json : payload;
}.

(** The sign-in fields handed to [authorize]. *)
Module Credentials.
(** The submitted sign-in fields; one that was not submitted is [None]. *)
Record t : Type := mk {
  email : option string;
  password : option string;
}.
End Credentials.

Section Server.
Context `{!Bcrypt, !Schema}.

(** *** prisma.user *)

(** [prisma.user.findFirst({ where: { OR: [{ email }, { username }] },
    select: { id: true } })]. A scalar that is not a string is refused by
    the client's argument validation. *)
Definition prisma_user_findFirst (email username : jsval) : Eff Db (option jsval) :=
  log_call CallFindFirst;;
  match email, username with
  | JStr e, JStr n =>
      gets (λ db, User.id <$> find (clashes e n) (rows db))
  | _, _ => throw (Exn "PrismaClientValidationError")
  end.

(** [prisma.user.findUnique({ where: { email } })] *)
Definition prisma_user_findUnique (email : string) : Eff Db (option User.t) :=
  log_call CallFindUnique;;
  gets (λ db, find (same_email email) (rows db)).

(** The optional column: an absent or null value is stored as null. *)
Definition optional_column (v : jsval) : option (option string) :=
  match v with
  | JUndefined | JNull => Some None
  | JStr s => Some (Some s)
  | _ => None
  end.

(** [prisma.user.create({ data: { email, username, passwordHash,
    displayName }, select: { id: true, email: true, username: true } })] *)
Definition prisma_user_create (email username : jsval) (passwordHash : string)
    (displayName : jsval) : Eff Db (jsval * string * string) :=
  log_call CallCreate;;
  match email, username, optional_column displayName with
  | JStr e, JStr n, Some d =>
      taken <- gets (λ db, existsb (clashes e n) (rows db));;
      if unique_constraint && taken
      then throw (Exn "PrismaClientKnownRequestError")
      else
        i <- gets (λ db, new_id (rows db));;
        modify (λ db,
          mkDb (rows db ++ [User.mk i e n d (Some passwordHash)]) (calls db));;
        ret (i, e, n)
  | _, _, _ => throw (Exn "PrismaClientValidationError")
  end.

(** [bcrypt.hash(password, 12)]: anything but a string is an illegal
    argument. *)
Definition bcrypt_hash_js {S} (password : jsval) (rounds : nat) (salt : string)
    : Eff S string :=
  match password with
  | JStr p => ret (bcrypt_hash p rounds salt)
  | _ => throw (Exn "Error")
  end.

(** *** POST /api/register *)

(** [const { email, username, password, displayName } = await req.json()] *)
Definition destructure {S} (b : req_body) : Eff S (jsval * jsval * jsval * jsval) :=
  match b with
  | BodyUnparsable => throw (Exn "SyntaxError")
  | BodyNull => throw (Exn "TypeError")
  | BodyObject o =>
      ret (prop o "email", prop o "username", prop o "password", prop o "displayName")
  | BodyOther => ret (JUndefined, JUndefined, JUndefined, JUndefined)
  end.

(** The handler. [concurrent] is what other requests do to the storage
    while this one is suspended between its read and its insert. *)
Definition POST_with (concurrent : Eff Db unit) (req : Request) : Eff Db Response :=
  try_catch
    (fields <- destructure (body req);;
     let '(email, username, password, displayName) := fields in
     if negb (truthy email) || negb (truthy username) || negb (truthy password)
     then ret (mkResponse 400 (ErrorPayload "Mangler felter"))
     else
       exists_ <- prisma_user_findFirst email username;;
       if exists_ is Some _
       then ret (mkResponse 409 (ErrorPayload "bruker finnes allerede"))
       else
         passwordHash <- bcrypt_hash_js password 12 (salt req);;
         concurrent;;
         user <- prisma_user_create email username passwordHash displayName;;
         let '(i, e, n) := user in
         ret (mkResponse 201 (UserPayload i e n)))
    (λ _, ret (mkResponse 500 (ErrorPayload "Serverfeil"))).

(** One request served with nothing else going on. *)
Definition POST (req : Request) : Eff Db Response := POST_with skip req.

(** *** authorize *)

(** The object [authorize] returns on success. *)
Definition identity_of (user : User.t) : obj :=
  {[ "id" := User.id user;
     "name" := JStr (nullish (User.displayName user) (User.username user));
     "email" := JStr (User.email user) ]}.

(** [authorize(credentials)] at credentials whose fields are strings or
    absent; [None] is the null it returns to refuse. Past the first guard
    both fields are strings. [authorize_any] further down is the callback at
    fields of any value, and agrees with this one on strings. *)
Definition authorize (credentials : option Credentials.t) : Eff Db (option obj) :=
  let email := credentials ≫= Credentials.email in
  let password := credentials ≫= Credentials.password in
  if negb (str_truthy email) || negb (str_truthy password)
  then ret None
  else
    user <- prisma_user_findUnique (default "" email);;
    if negb (str_truthy (user ≫= User.passwordHash))
    then ret None
    else
      let ok := bcrypt_compare (default "" password)
                               (default "" (user ≫= User.passwordHash)) in
      if negb ok
      then ret None
      else ret (identity_of <$> user).

End Server.

(** *** callbacks *)

(** [jwt({ token, user })]: [user] is [None] when the call carries none. *)
Definition jwt (token : obj) (user : option obj) : obj :=
  match user with
  | Some u => <["userId" := prop u "id"]> token
  | None => token
  end.

Module Session.
(** The session object: its [user] property, when it has a truthy one, and
    its remaining properties. *)
Record t : Type := mk {
  user : option obj;
  rest : obj;
}.
End Session.

(** [session({ session, token })] *)
Definition session (session : Session.t) (token : option obj) : Session.t :=
  let session1 :=
    if Session.user session is None
    then Session.mk (Some ∅) (Session.rest session)
    else session in
  if truthy (opt_prop token "userId")
  then Session.mk
         ((λ u, <["id" := opt_prop token "userId"]> u) <$> Session.user session1)
         (Session.rest session1)
  else session1.

(** ** The registration form (page.jsx) *)

Module Form.
(** The [form] state: four text inputs, each a string. *)
Record t : Type := mk {
  email : string;
  username : string;
  displayName : string;
  password : string;
}.
End Form.

(** [useState({ email: "", username: "", displayName: "", password: "" })] *)
Definition initial_form : Form.t := Form.mk "" "" "" "".

(** [JSON.stringify(form)] as the endpoint parses it back. *)
Definition form_body (form : Form.t) : req_body :=
  BodyObject
    {[ "email" := JStr (Form.email form);
       "username" := JStr (Form.username form);
       "displayName" := JStr (Form.displayName form);
       "password" := JStr (Form.password form) ]}.

(** What the page does to the outside, in order. *)
Inductive effect : Type :=
  | PreventDefault
  | Fetch (form : Form.t)                      (* POST /api/register *)
  | SignIn (email password : string)           (* signIn("credentials", ...) *)
  | RouterPush (path : string)
  | ConsoleError (e : exn).

(** The component state [onSubmit] reads and sets, and what it has done. *)
Record Ui : Type := mkUi {
  error : string;
  loading : bool;
  effects : list effect;
}.

Definition setError (msg : string) : Eff Ui unit :=
  modify (λ ui, mkUi msg (loading ui) (effects ui)).

Definition setLoading (b : bool) : Ui → Ui :=
  λ ui, mkUi (error ui) b (effects ui).

Definition perform (e : effect) : Eff Ui unit :=
  modify (λ ui, mkUi (error ui) (loading ui) (effects ui ++ [e])).

(** How the registration call would end if left alone, and when (in
    milliseconds after it was started). *)
Inductive fetch_behaviour : Type :=
  | Responds (after : N) (status : nat) (data_error : option string)
  | Fails (after : N) (e : exn)
  | NeverCompletes.

(** How [signIn] ends: with a result whose [error] may be set, or by
    throwing. *)
Inductive signIn_behaviour : Type :=
  | SignInResult (error : option string)
  | SignInThrows (e : exn).

(** The delay given to [setTimeout(() => controller.abort(), 10000)]. *)
Definition timeout_ms : N := 10000%N.

(** [await fetch("/api/register", { ..., signal: controller.signal })] under
    the timer: a call still pending when the timer fires is aborted and
    rejects with an AbortError. A call that ends at the very instant the
    timer is due is taken to have ended. *)
Definition fetch (form : Form.t) (b : fetch_behaviour)
    : Eff Ui (nat * option string) :=
  perform (Fetch form);;
  match b with
  | Responds t st d =>
      if (t <=? timeout_ms)%N then ret (st, d) else throw (Exn "AbortError")
  | Fails t e =>
      if (t <=? timeout_ms)%N then throw e else throw (Exn "AbortError")
  | NeverCompletes => throw (Exn "AbortError")
  end.

(** [await signIn("credentials", { email, password, redirect: false })] *)
Definition signIn (email password : string) (b : signIn_behaviour)
    : Eff Ui (option string) :=
  perform (SignIn email password);;
  match b with
  | SignInResult err => ret err
  | SignInThrows e => throw e
  end.

(** [res.ok] *)
Definition res_ok (status : nat) : bool :=
  ((200 <=? status) && (status <=? 299))%nat.

Definition exn_name (e : exn) : string := let 'Exn n := e in n.

(** [onSubmit(e)]. [development] is [process.env.NODE_ENV === "development"]. *)
Definition onSubmit (form : Form.t) (development : bool)
    (net : fetch_behaviour) (auth : signIn_behaviour) : Eff Ui unit :=
  busy <- gets loading;;
  if busy then skip
  else
    perform PreventDefault;;
    setError "";;
    finally
      (try_catch
         (modify (setLoading true);;
          res <- fetch form net;;
          let '(status, data_error) := res in
          if negb (res_ok status)
          then
            if (status =? 409)%nat then setError "Bruker finnes allerede"
            else if (status =? 400)%nat
            then setError (if str_truthy data_error
                           then default "" data_error
                           else "Mangler felter")
            else setError "Serverfeil – prøv igjen"
          else
            r_error <- signIn (Form.email form) (Form.password form) auth;;
            if str_truthy r_error
            then setError "Feil e‑post/passord"
            else perform (RouterPush "/profile"))
         (λ e,
            (if bool_decide (exn_name e = "AbortError")
             then setError "Tidsavbrudd – prøv igjen"
             else setError "Nettverksfeil – sjekk tilkoblingen");;
            if development then perform (ConsoleError e) else skip))
      (setLoading false).

(** ** Stand-ins for the outside, for running the definitions *)

(** A hasher that keeps the contract of bcrypt without being one: the hash
    is a marker, the plaintext; the salt is not used. *)
Definition demo_bcrypt : Bcrypt :=
  {| bcrypt_hash := λ p _ _, String "$"%char p;
     bcrypt_compare := λ p h, bool_decide (h = String "$"%char p) |}.

(** Ids counted from 1, and a storage that refuses duplicates. *)
Definition demo_schema : Schema :=
  {| new_id := λ rows, JNum (Z.of_nat (S (length rows)));
     unique_constraint := true |}.

(** The spec's scenario: alice registers with the display-name input left
    blank. *)
Definition alice_form : Form.t := Form.mk "a@x.com" "alice" "" "secret123".

Definition alice_fields : obj :=
  {[ "email" := JStr "a@x.com";
     "username" := JStr "alice";
     "displayName" := JStr "";
     "password" := JStr "secret123" ]}.

(** The row that registration stores under the stand-ins. *)
Definition alice_row : User.t :=
  User.mk (JNum 1) "a@x.com" "alice" (Some "") (Some "$secret123").

(** A second registration that reuses alice's email, with a password or
    without. *)
Definition mallory_fields (password : string) : obj :=
  {[ "email" := JStr "a@x.com";
     "username" := JStr "mallory";
     "password" := JStr password ]}.

Definition empty_db : Db := mkDb [] [].

(** ** Vocabulary of the statements *)

Section Vocabulary.
Context `{!Bcrypt}.

(** The credentials name the stored user [u] and carry its password. *)
Definition accepted (db : Db) (c : option Credentials.t) (u : User.t) : Prop :=
  ∃ e p h,
    c = Some (Credentials.mk (Some e) (Some p)) ∧ e ≠ "" ∧ p ≠ "" ∧
    find (same_email e) (rows db) = Some u ∧
    User.passwordHash u = Some h ∧
    bcrypt_compare p h = true.

(** The three ways a sign-in with both fields filled in is refused. *)
Inductive rejection (db : Db) : option Credentials.t → Prop :=
  | NoSuchUser e p :
      e ≠ "" → p ≠ "" →
      find (same_email e) (rows db) = None →
      rejection db (Some (Credentials.mk (Some e) (Some p)))
  | NoPasswordHash e p u :
      e ≠ "" → p ≠ "" →
      find (same_email e) (rows db) = Some u →
      User.passwordHash u = None →
      rejection db (Some (Credentials.mk (Some e) (Some p)))
  | WrongPassword e p u h :
      e ≠ "" → p ≠ "" →
      find (same_email e) (rows db) = Some u →
      User.passwordHash u = Some h →
      bcrypt_compare p h = false →
      rejection db (Some (Credentials.mk (Some e) (Some p))).

End Vocabulary.

(** The fields of a well-formed registration: three non-empty strings and a
    display name that is a string, null or absent. *)
Definition well_formed (o : obj) (e n p : string) (d : option string) : Prop :=
  prop o "email" = JStr e ∧ e ≠ "" ∧
  prop o "username" = JStr n ∧ n ≠ "" ∧
  prop o "password" = JStr p ∧ p ≠ "" ∧
  optional_column (prop o "displayName") = Some d.

(** The value the handler destructures for a key of the body. *)
Definition field (b : req_body) (k : string) : jsval :=
  match b with
  | BodyObject o => prop o k
  | _ => JUndefined
  end.

(** [req.json()] resolves to something that can be destructured. *)
Definition readable (b : req_body) : bool :=
  match b with
  | BodyUnparsable | BodyNull => false
  | BodyObject _ | BodyOther => true
  end.

(** Some stored user has this email or this username. *)
Definition taken (e n : string) (db : Db) : Prop :=
  ∃ u, u ∈ rows db ∧ (User.email u = e ∨ User.username u = n).

(** The storage after one more client call. *)
Definition logged (c : prisma_call) (db : Db) : Db :=
  mkDb (rows db) (calls db ++ [c]).

(** ** Vocabulary of the further statements *)

(** No two rows share an email, and no two a username. *)
Definition unique_rows (l : list User.t) : Prop :=
  NoDup (User.email <$> l) ∧ NoDup (User.username <$> l).

(** The statuses the handler has a [NextResponse.json] for. *)
Definition handler_status (st : nat) : Prop :=
  st = 201%nat ∨ st = 400%nat ∨ st = 409%nat ∨ st = 500%nat.

(** The endpoint's response as the page's [fetch] gets it [after]
    milliseconds: [res.status], and [data?.error] of the JSON body. *)
Definition seen (after : N) (r : Response) : fetch_behaviour :=
  Responds after (status r)
    match json r with
    | ErrorPayload msg => Some msg
    | UserPayload _ _ _ => None
    end.

(** The token after a run of jwt callbacks, each a sign-in (with its user)
    or a refresh (with none), oldest first. *)
Definition token_after (events : list (option obj)) (token : obj) : obj :=
  foldl jwt token events.

(** The users of the sign-ins among the events. *)
Definition logins (events : list (option obj)) : list obj := omap (λ e, e) events.

(** What a run of [onSubmit] did: the effects it added to those before. *)
Definition added (before after : Ui) : list effect :=
  drop (length (effects before)) (effects after).

(** The registration call was answered in time with a status in 200..299. *)
Definition registered_in_time (net : fetch_behaviour) : Prop :=
  ∃ t st d, net = Responds t st d ∧ (t ≤ timeout_ms)%N ∧ res_ok st = true.

(** [signIn] returned a result with no truthy [error]. *)
Definition signed_in (auth : signIn_behaviour) : Prop :=
  ∃ err, auth = SignInResult err ∧ str_truthy err = false.

(** A registration of somebody else, on a storage that holds alice. *)
Definition bob_fields : obj :=
  {[ "email" := JStr "b@x.com";
     "username" := JStr "bob";
     "password" := JStr "pa55word" ]}.

Definition bob_row : User.t :=
  User.mk (JNum 2) "b@x.com" "bob" None (Some "$pa55word").

Definition alice_db : Db := mkDb [alice_row] [].

Definition alice_credentials : option Credentials.t :=
  Some (Credentials.mk (Some "a@x.com") (Some "secret123")).

(** The page at rest, and while a submit is under way. *)
Definition idle_ui : Ui := mkUi "" false [].

Definition busy_ui : Ui := mkUi "" true [PreventDefault; Fetch alice_form].

(** ** The sign-in callback on whatever the request carries *)

Section AuthorizeOnAnyValue.
Context `{!Bcrypt}.

(** [prisma.user.findUnique({ where: { email } })] with the value as it
    comes: a scalar that is not a string is refused by the client's argument
    validation. *)
Definition prisma_user_findUnique_any (email : jsval) : Eff Db (option User.t) :=
  log_call CallFindUnique;;
  match email with
  | JStr e => gets (λ db, find (same_email e) (rows db))
  | _ => throw (Exn "PrismaClientValidationError")
  end.

(** [bcrypt.compare(password, hash)] with the value as it comes: anything
    but a string is an illegal argument. *)
Definition bcrypt_compare_any {S} (password : jsval) (hash : string) : Eff S bool :=
  match password with
  | JStr p => ret (bcrypt_compare p hash)
  | _ => throw (Exn "Error")
  end.

(** [authorize(credentials)] where [credentials] is the object of the
    request, or undefined: its [email] and [password] may be any scalar.
    There is no [try] in it, so what the lookup or the comparison throws
    leaves it. [authorize] above is this callback at string fields. *)
Definition authorize_any (credentials : option obj) : Eff Db (option obj) :=
  let email := opt_prop credentials "email" in
  let password := opt_prop credentials "password" in
  if negb (truthy email) || negb (truthy password)
  then ret None
  else
    user <- prisma_user_findUnique_any email;;
    if negb (str_truthy (user ≫= User.passwordHash))
    then ret None
    else
      ok <- bcrypt_compare_any password (default "" (user ≫= User.passwordHash));;
      if negb ok
      then ret None
      else ret (identity_of <$> user).


End AuthorizeOnAnyValue.

(** String credentials as the object they come in. *)
Definition as_object (c : option Credentials.t) : option obj :=
  (λ c,
     let o : obj :=
       match Credentials.email c with
       | Some e => {[ "email" := JStr e ]}
       | None => ∅
       end in
     match Credentials.password c with
     | Some p => <["password" := JStr p]> o
     | None => o
     end) <$> c.

(** The credentials object [{ email, password }]. *)
Definition credentials_of (email password : jsval) : option obj :=
  Some {[ "email" := email; "password" := password ]}.

(** Modelled from the spec: the Prisma schema of the user model, which is
    not among the sources. The spec has email and username "each globally
    unique", by a "storage-enforced guarantee that no two users share an
    email or username"; the lookup by email alone in route.js needs as much
    of the email. The default of the id column stays open. *)
Definition spec_schema (ids : list User.t → jsval) : Schema :=
  {| new_id := ids; unique_constraint := true |}.



(** * Properties *)

Section Effects.
Context {S : Type}.


Lemma run_bind {A B} (c : Eff S A) (f : A → Eff S B) (s : S) :
  run (bind c f) s
  = match run c s with
    | (Value a, s') => run (f a) s'
    | (Thrown e, s') => (Thrown e, s')
    end.
Proof. reflexivity. Qed.




Lemma run_try_catch {A} (c : Eff S A) (h : exn → Eff S A) (s : S) :
  run (try_catch c h) s
  = match run c s with
    | (Value a, s') => (Value a, s')
    | (Thrown e, s') => run (h e) s'
    end.
Proof. reflexivity. Qed.


End Effects.


Section Authorize.
Context `{!Bcrypt}.

Lemma str_truthy_Some (s : string) : s ≠ "" → str_truthy (Some s) = true.
Proof. intros Hs. simpl. by rewrite bool_decide_eq_false_2. Qed.

Lemma str_truthy_inv (o : option string) :
  str_truthy o = true → ∃ s, o = Some s ∧ s ≠ "".
Proof.
  destruct o as [s|]; simpl; [|done].
  case_bool_decide; [done|]. intros _. by exists s.
Qed.

(** [authorize] always returns; it never throws. *)
Lemma authorize_returns (db : Db) (c : option Credentials.t) :
  ∃ o db', run (authorize c) db = (Value o, db').
Proof.
  unfold run, authorize, prisma_user_findUnique, log_call, bind, ret, gets, modify.
  destruct (negb (str_truthy _) || negb (str_truthy _)); [by eauto|].
  simpl. destruct (negb (str_truthy _)); [by eauto|].
  destruct (negb _); by eauto.
Qed.

(** A sign-in that goes through read one row and checked it. *)
Lemma authorize_Some (db db' : Db) (c : option Credentials.t) (ident : obj) :
  run (authorize c) db = (Value (Some ident), db') →
  ∃ e p u h,
    c = Some (Credentials.mk (Some e) (Some p)) ∧ e ≠ "" ∧ p ≠ "" ∧
    find (same_email e) (rows db) = Some u ∧
    User.passwordHash u = Some h ∧ h ≠ "" ∧
    bcrypt_compare p h = true ∧
    ident = identity_of u ∧ db' = logged CallFindUnique db.
Proof.
  unfold run, authorize, prisma_user_findUnique, log_call, bind, ret, gets, modify.
  destruct (str_truthy (c ≫= Credentials.email)) eqn:He; simpl; [|done].
  destruct (str_truthy (c ≫= Credentials.password)) eqn:Hp; simpl; [|done].
  apply str_truthy_inv in He as (e & He & Hne).
  apply str_truthy_inv in Hp as (p & Hp & Hnp).
  destruct c as [[ce cp]|]; simpl in *; [|done]. subst ce cp. simpl.
  destruct (find (same_email e) (rows db)) as [u|] eqn:Hfind; simpl; [|done].
  destruct (str_truthy (User.passwordHash u)) eqn:Hh; simpl; [|done].
  apply str_truthy_inv in Hh as (h & Hh & Hnh). rewrite Hh. simpl.
  destruct (bcrypt_compare p h) eqn:Hok; simpl; [|done].
  intros [= <- <-]. by exists e, p, u, h.
Qed.

(** Conversely, credentials that match a row with a non-empty hash go
    through. *)
Lemma authorize_accepts (db : Db) (e p h : string) (u : User.t) :
  e ≠ "" → p ≠ "" →
  find (same_email e) (rows db) = Some u →
  User.passwordHash u = Some h → h ≠ "" →
  bcrypt_compare p h = true →
  run (authorize (Some (Credentials.mk (Some e) (Some p)))) db
  = (Value (Some (identity_of u)), logged CallFindUnique db).
Proof.
  intros He Hp Hfind Hh Hnh Hok.
  unfold run, authorize, prisma_user_findUnique, log_call, bind, ret, gets, modify.
  simpl. rewrite !bool_decide_eq_false_2 by done. simpl.
  rewrite Hfind. simpl. rewrite Hh. simpl.
  rewrite bool_decide_eq_false_2 by done. simpl. by rewrite Hok.
Qed.

(** A refusal of any of the three kinds is the null result. *)
Lemma rejection_null (db : Db) (c : option Credentials.t) :
  rejection db c → (run (authorize c) db).1 = Value None.
Proof.
  unfold run, authorize, prisma_user_findUnique, log_call, bind, ret, gets, modify.
  destruct 1 as [e p He Hp Hfind|e p u He Hp Hfind Hh|e p u h He Hp Hfind Hh Hok];
    simpl; rewrite !bool_decide_eq_false_2 by done; simpl; rewrite Hfind; simpl.
  - done.
  - by rewrite Hh.
  - rewrite Hh. simpl. destruct (negb (bool_decide (h = ""))); simpl; [|done].
    by rewrite Hok.
Qed.


End Authorize.

Section Registration.
Context `{!Bcrypt, !Schema}.

Lemma find_clashes_None (e n : string) (l : list User.t) :
  find (clashes e n) l = None ↔
  ∀ u, u ∈ l → User.email u ≠ e ∧ User.username u ≠ n.
Proof.
  induction l as [|v l IH]; simpl.
  - split; [|done]. intros _ u Hu. by apply elem_of_nil in Hu.
  - unfold clashes at 1, same_email, same_username.
    destruct (bool_decide (User.email v = e)) eqn:He; simpl.
    + apply bool_decide_eq_true in He. split; [done|].
      intros Hall. destruct (Hall v) as [Hv _]; [by left|done].
    + apply bool_decide_eq_false in He.
      destruct (bool_decide (User.username v = n)) eqn:Hn; simpl.
      * apply bool_decide_eq_true in Hn. split; [done|].
        intros Hall. destruct (Hall v) as [_ Hv]; [by left|done].
      * apply bool_decide_eq_false in Hn. rewrite IH. split.
        -- intros Hall u Hu. apply elem_of_cons in Hu as [->|Hu]; [done|by apply Hall].
        -- intros Hall u Hu. apply Hall. by right.
Qed.

Lemma find_clashes_taken (e n : string) (db : Db) :
  taken e n db → ∃ u, find (clashes e n) (rows db) = Some u.
Proof.
  intros (u & Hu & Hclash).
  destruct (find (clashes e n) (rows db)) as [v|] eqn:Hfind; [by eexists|].
  rewrite find_clashes_None in Hfind. destruct (Hfind u Hu). by destruct Hclash.
Qed.

Lemma existsb_clashes_false (e n : string) (l : list User.t) :
  find (clashes e n) l = None → existsb (clashes e n) l = false.
Proof.
  induction l as [|v l IH]; simpl; [done|].
  destruct (clashes e n v); simpl; [done|exact IH].
Qed.

Lemma existsb_clashes_true (e n : string) (db : Db) :
  taken e n db → existsb (clashes e n) (rows db) = true.
Proof.
  intros Htaken. destruct (find_clashes_taken e n db Htaken) as [u Hfind].
  destruct (existsb (clashes e n) (rows db)) eqn:Hex; [done|].
  apply find_some in Hfind as [Hin Hu].
  assert (existsb (clashes e n) (rows db) = true) as Hex'
    by (apply existsb_exists; eauto).
  congruence.
Qed.

(** The inserted row is the one a lookup by its email finds, when no row
    had that email before. *)
Lemma find_same_email_fresh (e : string) (l : list User.t) (v : User.t) :
  (∀ u, u ∈ l → User.email u ≠ e) → User.email v = e →
  find (same_email e) (l ++ [v]) = Some v.
Proof.
  intros Hall Hv. induction l as [|w l IH]; simpl.
  - unfold same_email. by rewrite bool_decide_eq_true_2.
  - unfold same_email at 1. rewrite bool_decide_eq_false_2.
    + apply IH. intros u Hu. apply Hall. by right.
    + apply Hall. by left.
Qed.

Lemma truthy_JStr (s : string) : s ≠ "" → truthy (JStr s) = true.
Proof. intros Hs. simpl. by rewrite bool_decide_eq_false_2. Qed.

(** The handler up to its insert: a well-formed request whose email and
    username nobody holds at the read goes on to hash and insert. *)
Lemma POST_with_passes_read (concurrent : Eff Db unit) (o : obj) (s : string)
    (e n p : string) (d : option string) (db : Db) :
  well_formed o e n p d →
  find (clashes e n) (rows db) = None →
  run (POST_with concurrent (mkRequest (BodyObject o) s)) db
  = run (try_catch
           (concurrent;;
            user <- prisma_user_create (JStr e) (JStr n) (bcrypt_hash p 12 s)
                      (prop o "displayName");;
            let '(i, e', n') := user in
            ret (mkResponse 201 (UserPayload i e' n')))
           (λ _, ret (mkResponse 500 (ErrorPayload "Serverfeil"))))
        (logged CallFindFirst db).
Proof.
  intros (He & Hne & Hn & Hnn & Hp & Hnp & Hd) Hfind.
  unfold run, POST_with, try_catch, bind at 1, destructure, ret at 1. simpl.
  rewrite He, Hn, Hp, !truthy_JStr by done. simpl.
  unfold bind at 1, prisma_user_findFirst, bind at 1, log_call, modify, gets.
  simpl. rewrite Hfind. simpl. reflexivity.
Qed.

(** The insert on a storage with no clashing row. *)
Lemma prisma_user_create_fresh (e n h : string) (dv : jsval) (d : option string)
    (db : Db) :
  optional_column dv = Some d →
  find (clashes e n) (rows db) = None →
  run (prisma_user_create (JStr e) (JStr n) h dv) db
  = (Value (new_id (rows db), e, n),
     mkDb (rows db ++ [User.mk (new_id (rows db)) e n d (Some h)])
          (calls db ++ [CallCreate])).
Proof.
  intros Hd Hfind.
  unfold run, prisma_user_create, bind, log_call, modify, gets, ret. simpl.
  rewrite Hd. simpl. rewrite (existsb_clashes_false _ _ _ Hfind), andb_false_r. done.
Qed.

(** The insert on a storage that holds a clashing row. *)
Lemma prisma_user_create_taken (e n h : string) (dv : jsval) (d : option string)
    (db : Db) :
  optional_column dv = Some d →
  taken e n db →
  run (prisma_user_create (JStr e) (JStr n) h dv) db
  = if unique_constraint
    then (Thrown (Exn "PrismaClientKnownRequestError"), logged CallCreate db)
    else (Value (new_id (rows db), e, n),
          mkDb (rows db ++ [User.mk (new_id (rows db)) e n d (Some h)])
               (calls db ++ [CallCreate])).
Proof.
  intros Hd Htaken.
  unfold run, prisma_user_create, bind, log_call, modify, gets, ret. simpl.
  rewrite Hd. simpl. rewrite (existsb_clashes_true _ _ _ Htaken), andb_true_r.
  by destruct unique_constraint.
Qed.

(** A well-formed registration of a free email and username, served alone:
    201 with the new id, and one row more. *)
Lemma POST_registers (o : obj) (s e n p : string) (d : option string) (db : Db) :
  well_formed o e n p d →
  find (clashes e n) (rows db) = None →
  run (POST (mkRequest (BodyObject o) s)) db
  = (Value (mkResponse 201 (UserPayload (new_id (rows db)) e n)),
     mkDb (rows db ++ [User.mk (new_id (rows db)) e n d (Some (bcrypt_hash p 12 s))])
          (calls db ++ [CallFindFirst; CallCreate])).
Proof.
  intros Hwf Hfind. unfold POST.
  rewrite (POST_with_passes_read skip o s e n p d db Hwf Hfind).
  destruct Hwf as (_ & _ & _ & _ & _ & _ & Hd).
  unfold run, try_catch, bind at 1, skip, ret at 1. unfold bind at 1.
  pose proof (prisma_user_create_fresh e n (bcrypt_hash p 12 s)
                (prop o "displayName") d (logged CallFindFirst db) Hd Hfind) as Hc.
  unfold run in Hc. rewrite Hc. simpl. by rewrite <- app_assoc.
Qed.

(** A request with a taken email or username stops at the read. *)
Lemma POST_with_conflict (concurrent : Eff Db unit) (o : obj) (s e n : string)
    (db : Db) :
  prop o "email" = JStr e → e ≠ "" →
  prop o "username" = JStr n → n ≠ "" →
  truthy (prop o "password") = true →
  taken e n db →
  run (POST_with concurrent (mkRequest (BodyObject o) s)) db
  = (Value (mkResponse 409 (ErrorPayload "bruker finnes allerede")),
     logged CallFindFirst db).
Proof.
  intros He Hne Hn Hnn Hp Htaken.
  destruct (find_clashes_taken e n db Htaken) as [u Hfind].
  unfold run, POST_with, try_catch, bind at 1, destructure, ret at 1. simpl.
  rewrite He, Hn, Hp, !truthy_JStr by done. simpl.
  unfold bind at 1, prisma_user_findFirst, bind at 1, log_call, modify, gets.
  simpl. rewrite Hfind. simpl. reflexivity.
Qed.

Lemma filter_same_email_fresh (e : string) (l : list User.t) (v : User.t) :
  (∀ u, u ∈ l → User.email u ≠ e) → User.email v = e →
  List.filter (same_email e) (l ++ [v]) = [v].
Proof.
  intros Hall Hv. induction l as [|w l IH]; simpl.
  - unfold same_email. by rewrite bool_decide_eq_true_2.
  - unfold same_email at 1. rewrite bool_decide_eq_false_2.
    + apply IH. intros u Hu. apply Hall. by right.
    + apply Hall. by left.
Qed.

(** Registering, then registering again with the same email: 201, then 409,
    and one row with that email. *)
Lemma register_twice_leaves_one_row
    (o o2 : obj) (s s2 e n n2 p : string) (d : option string) (db : Db) :
  well_formed o e n p d →
  (∀ u, u ∈ rows db → User.email u ≠ e ∧ User.username u ≠ n) →
  prop o2 "email" = JStr e →
  prop o2 "username" = JStr n2 → n2 ≠ "" →
  truthy (prop o2 "password") = true →
  ∃ r1 db1 r2 db2,
    run (POST (mkRequest (BodyObject o) s)) db = (Value r1, db1) ∧
    status r1 = 201%nat ∧
    run (POST (mkRequest (BodyObject o2) s2)) db1 = (Value r2, db2) ∧
    status r2 = 409%nat ∧
    length (List.filter (same_email e) (rows db2)) = 1%nat.
Proof.
  intros Hwf Hfree He2 Hn2 Hnn2 Hp2.
  pose proof Hwf as (_ & Hne & _).
  apply find_clashes_None in Hfree as Hfind.
  eexists _, _, _, _. split; [exact (POST_registers o s e n p d db Hwf Hfind)|].
  split; [done|]. split.
  - unfold POST. apply (POST_with_conflict skip o2 s2 e n2); try done.
    exists (User.mk (new_id (rows db)) e n d (Some (bcrypt_hash p 12 s))).
    split; [|by left]. simpl. apply elem_of_app. right. by left.
  - split; [done|]. simpl. rewrite filter_same_email_fresh; [done| |done].
    intros u Hu. by destruct (Hfree u Hu).
Qed.

End Registration.

Section Callbacks.

(** The session callback copies a truthy [userId] into [session.user.id]. *)
Lemma session_sets_id (sess : Session.t) (token : option obj) :
  truthy (opt_prop token "userId") = true →
  ∃ u, Session.user (session sess token) = Some u ∧
       u !! "id" = Some (opt_prop token "userId").
Proof.
  intros Htruthy. unfold session. rewrite Htruthy.
  destruct (Session.user sess) as [u|] eqn:Hu; simpl.
  - rewrite Hu. simpl. eexists. split; [done|]. apply lookup_insert_eq.
  - eexists. split; [done|]. apply lookup_insert_eq.
Qed.

(** C7. With a user at hand, the jwt callback returns the token it was given
    with [userId] set to the user's id and every other claim as it was;
    with none, it returns the token it was given. *)
Theorem jwt_enrichment (token user : obj) :
  jwt token (Some user) = <["userId" := prop user "id"]> token ∧
  jwt token (Some user) !! "userId" = Some (prop user "id") ∧
  (∀ k, k ≠ "userId" → jwt token (Some user) !! k = token !! k) ∧
  jwt token None = token.
Proof.
  unfold jwt. split; [done|]. split; [apply lookup_insert_eq|]. split; [|done].
  intros k Hk. by apply lookup_insert_ne.
Qed.

(** C8, amended. The session callback always returns a session with a user
    object, an empty one being made when there was none; and when the token
    carries a truthy [userId] (a non-empty string, a non-zero number, true)
    the returned [session.user.id] is that [userId], the other properties of
    the user and of the session being kept. *)
Theorem session_derivation (sess : Session.t) (token : option obj) :
  is_Some (Session.user (session sess token)) ∧
  Session.rest (session sess token) = Session.rest sess ∧
  (truthy (opt_prop token "userId") = true →
   ∃ u, Session.user (session sess token) = Some u ∧
        u !! "id" = Some (opt_prop token "userId") ∧
        ∀ k, k ≠ "id" → u !! k = default ∅ (Session.user sess) !! k).
Proof.
  unfold session.
  destruct (truthy (opt_prop token "userId")) eqn:Htruthy;
    destruct (Session.user sess) as [u|] eqn:Hu; simpl; rewrite ?Hu; simpl;
    (split; [by eexists|]); (split; [done|]); try done.
  - intros _. eexists. split; [done|]. split; [apply lookup_insert_eq|].
    intros k Hk. by apply lookup_insert_ne.
  - intros _. eexists. split; [done|]. split; [apply lookup_insert_eq|].
    intros k Hk. by apply lookup_insert_ne.
Qed.

End Callbacks.

Section RegistrationClaims.
Context `{!Bcrypt, !Schema}.

(** C1. A well-formed registration of an email and a username nobody holds
    creates the user and answers 201 with its id; signing in next with the
    same email and password goes through, and whatever token and session the
    jwt and session callbacks start from, the session they give has
    [session.user.id] equal to that id. The hasher is taken to verify a
    password against its own non-empty hash, and the schema to give a truthy
    id. *)
Theorem register_then_sign_in
    (o : obj) (s e n p : string) (d : option string) (db : Db) :
  well_formed o e n p d →
  (∀ u, u ∈ rows db → User.email u ≠ e ∧ User.username u ≠ n) →
  bcrypt_hash p 12 s ≠ "" →
  bcrypt_compare p (bcrypt_hash p 12 s) = true →
  truthy (new_id (rows db)) = true →
  ∃ i db1,
    run (POST (mkRequest (BodyObject o) s)) db
    = (Value (mkResponse 201 (UserPayload i e n)), db1) ∧
    rows db1 = (rows db ++ [User.mk i e n d (Some (bcrypt_hash p 12 s))])%list ∧
    ∃ ident db2,
      run (authorize (Some (Credentials.mk (Some e) (Some p)))) db1
      = (Value (Some ident), db2) ∧
      ∀ (token : obj) (sess : Session.t),
        ∃ u, Session.user (session sess (Some (jwt token (Some ident)))) = Some u ∧
             u !! "id" = Some i.
Proof.
  intros Hwf Hfree Hnonempty Hverify Hid.
  pose proof Hwf as (_ & He & _ & _ & _ & Hp & _).
  apply find_clashes_None in Hfree as Hfind.
  eexists _, _. split; [exact (POST_registers o s e n p d db Hwf Hfind)|].
  split; [done|].
  set (row := User.mk (new_id (rows db)) e n d (Some (bcrypt_hash p 12 s))).
  eexists _, _. split.
  - apply (authorize_accepts _ e p (bcrypt_hash p 12 s) row); try done.
    simpl. apply find_same_email_fresh; [|done].
    intros u Hu. by destruct (Hfree u Hu).
  - intros token sess.
    assert (opt_prop (Some (jwt token (Some (identity_of row)))) "userId"
            = new_id (rows db)) as Hclaim.
    { unfold opt_prop, prop, jwt. rewrite lookup_insert_eq. simpl.
      unfold prop, identity_of. by rewrite lookup_insert_eq. }
    destruct (session_sets_id sess (Some (jwt token (Some (identity_of row)))))
      as (u & Hu & Hlookup); [by rewrite Hclaim|].
    exists u. split; [done|]. by rewrite Hlookup, Hclaim.
Qed.

(** C4, amended. A registration with a non-empty email, username and
    password (email and username being strings) whose email or username a
    stored user holds is answered 409 whatever the password and the salt,
    and leaves the rows as they were; so a well-formed registration repeated
    with the same email is answered 201, then 409, and leaves one row with
    that email. *)
Theorem duplicate_registration_conflicts :
  (∀ (o : obj) (s e n : string) (db : Db),
     prop o "email" = JStr e → e ≠ "" →
     prop o "username" = JStr n → n ≠ "" →
     truthy (prop o "password") = true →
     taken e n db →
     ∃ db',
       run (POST (mkRequest (BodyObject o) s)) db
       = (Value (mkResponse 409 (ErrorPayload "bruker finnes allerede")), db') ∧
       rows db' = rows db ∧
       calls db' = (calls db ++ [CallFindFirst])%list) ∧
  (∀ (o o2 : obj) (s s2 e n n2 p : string) (d : option string) (db : Db),
     well_formed o e n p d →
     (∀ u, u ∈ rows db → User.email u ≠ e ∧ User.username u ≠ n) →
     prop o2 "email" = JStr e →
     prop o2 "username" = JStr n2 → n2 ≠ "" →
     truthy (prop o2 "password") = true →
     ∃ r1 db1 r2 db2,
       run (POST (mkRequest (BodyObject o) s)) db = (Value r1, db1) ∧
       status r1 = 201%nat ∧
       run (POST (mkRequest (BodyObject o2) s2)) db1 = (Value r2, db2) ∧
       status r2 = 409%nat ∧
       length (List.filter (same_email e) (rows db2)) = 1%nat).
Proof.
  split.
  - intros o s e n db He Hne Hn Hnn Hp Htaken. eexists. split.
    + unfold POST. by apply (POST_with_conflict skip o s e n db).
    + done.
  - intros o o2 s s2 e n n2 p d db. apply register_twice_leaves_one_row.
Qed.

(** X23. A registration whose body parses to something other than null and
    in which email, username or password is missing or falsy (the empty
    string, null, 0, false) is answered 400, and the storage is left as it
    was: no row added and no call made. *)
Theorem missing_field_is_refused (req : Request) (db : Db) :
  readable (body req) = true →
  truthy (field (body req) "email") = false ∨
  truthy (field (body req) "username") = false ∨
  truthy (field (body req) "password") = false →
  run (POST req) db = (Value (mkResponse 400 (ErrorPayload "Mangler felter")), db).
Proof.
  intros Hreadable Hmissing.
  unfold run, POST, POST_with, try_catch, bind at 1, destructure, ret at 1.
  destruct (body req) as [| |o|]; simpl in *; try done.
  destruct Hmissing as [-> | [-> | ->]]; simpl; rewrite ?orb_true_r; done.
Qed.

End RegistrationClaims.

Section DisplayName.
Context `{!Bcrypt, !Schema}.

(** The body the form sends is well formed once its three required inputs
    are filled in; its display name is always a string. *)
Lemma form_body_well_formed (form : Form.t) (o : obj) :
  form_body form = BodyObject o →
  Form.email form ≠ "" → Form.username form ≠ "" → Form.password form ≠ "" →
  well_formed o (Form.email form) (Form.username form) (Form.password form)
    (Some (Form.displayName form)).
Proof.
  intros [= <-] He Hn Hp. unfold well_formed, prop.
  by simplify_map_eq.
Qed.

(** C10. A sign-in that goes through for a stored user whose display name is
    the empty string returns the empty string as name, not the username: the
    name is the username only for a user whose display name is null. The
    empty display name is what a registration through the form stores when
    the input is left blank: the form always sends a string, and the
    endpoint stores it as it is. *)
Theorem empty_display_name_is_kept :
  (∀ (db db' : Db) (c : option Credentials.t) (ident : obj),
     run (authorize c) db = (Value (Some ident), db') →
     ∃ u, accepted db c u ∧
       (User.displayName u = Some "" → ident !! "name" = Some (JStr "")) ∧
       (User.displayName u = None →
          ident !! "name" = Some (JStr (User.username u))) ∧
       (∀ dn, User.displayName u = Some dn → ident !! "name" = Some (JStr dn))) ∧
  (∀ (form : Form.t) (s : string) (db : Db),
     Form.email form ≠ "" → Form.username form ≠ "" → Form.password form ≠ "" →
     (∀ u, u ∈ rows db →
        User.email u ≠ Form.email form ∧ User.username u ≠ Form.username form) →
     ∃ r db1 u,
       run (POST (mkRequest (form_body form) s)) db = (Value r, db1) ∧
       status r = 201%nat ∧
       rows db1 = (rows db ++ [u])%list ∧
       User.email u = Form.email form ∧
       User.displayName u = Some (Form.displayName form)).
Proof.
  split.
  - intros db db' c ident Hrun.
    apply authorize_Some in Hrun
      as (e & p & u & h & Hc & He & Hp & Hfind & Hh & _ & Hok & Hid & _).
    subst ident. exists u. split; [by exists e, p, h|].
    unfold identity_of.
    split; [|split]; [intros Hd|intros Hd|intros dn Hd];
      rewrite Hd; by simplify_map_eq.
  - intros form s db He Hn Hp Hfree.
    apply find_clashes_None in Hfree as Hfind.
    pose proof (form_body_well_formed form _ eq_refl He Hn Hp) as Hwf.
    eexists _, _, _. split; [exact (POST_registers _ s _ _ _ _ db Hwf Hfind)|].
    done.
Qed.

End DisplayName.

Section FormFlow.


End FormFlow.

(** * The properties at concrete inputs *)

Section Concrete.
#[local] Existing Instance demo_bcrypt.
#[local] Existing Instance demo_schema.

Lemma alice_well_formed :
  well_formed alice_fields "a@x.com" "alice" "secret123" (Some "").
Proof. by repeat split. Qed.

Lemma nobody_stored (e n : string) :
  ∀ u, u ∈ rows empty_db → User.email u ≠ e ∧ User.username u ≠ n.
Proof. intros u Hu. by apply elem_of_nil in Hu. Qed.

Lemma alice_taken (n : string) (cs : list prisma_call) :
  taken "a@x.com" n (mkDb [alice_row] cs).
Proof. exists alice_row. split; [by left|by left]. Qed.

(** C1 at the spec's scenario: alice registers on an empty storage, signs
    in, and the session carries the id the registration answered. *)
Lemma register_then_sign_in_witness :
  ∃ i db1,
    run (POST (mkRequest (BodyObject alice_fields) "salt")) empty_db
    = (Value (mkResponse 201 (UserPayload i "a@x.com" "alice")), db1) ∧
    rows db1 = (rows empty_db ++
                [User.mk i "a@x.com" "alice" (Some "")
                   (Some (bcrypt_hash "secret123" 12 "salt"))])%list ∧
    ∃ ident db2,
      run (authorize (Some (Credentials.mk (Some "a@x.com") (Some "secret123")))) db1
      = (Value (Some ident), db2) ∧
      ∀ (token : obj) (sess : Session.t),
        ∃ u, Session.user (session sess (Some (jwt token (Some ident)))) = Some u ∧
             u !! "id" = Some i.
Proof.
  apply (register_then_sign_in alice_fields "salt" "a@x.com" "alice" "secret123"
           (Some "") empty_db).
  - exact alice_well_formed.
  - apply nobody_stored.
  - discriminate.
  - reflexivity.
  - reflexivity.
Defined.

(** C4, the claim as first stated, fails: alice's email is taken, yet a
    second registration with it and an empty password is answered 400, not
    409. *)
Lemma conflict_needs_a_password_counterexample :
  taken "a@x.com" "mallory" (mkDb [alice_row] []) ∧
  run (POST (mkRequest (BodyObject (mallory_fields "")) "salt")) (mkDb [alice_row] [])
  = (Value (mkResponse 400 (ErrorPayload "Mangler felter")), mkDb [alice_row] []).
Proof. split; [apply alice_taken|reflexivity]. Qed.

(** C4 as amended, at a second registration with alice's email and some
    password, and at alice's registration followed by that one. *)
Lemma duplicate_registration_conflicts_witness :
  (taken "a@x.com" "mallory" (mkDb [alice_row] []) ∧
   ∃ db',
     run (POST (mkRequest (BodyObject (mallory_fields "hunter2")) "salt"))
       (mkDb [alice_row] [])
     = (Value (mkResponse 409 (ErrorPayload "bruker finnes allerede")), db') ∧
     rows db' = rows (mkDb [alice_row] []) ∧
     calls db' = (calls (mkDb [alice_row] []) ++ [CallFindFirst])%list) ∧
  ∃ r1 db1 r2 db2,
    run (POST (mkRequest (BodyObject alice_fields) "salt")) empty_db = (Value r1, db1) ∧
    status r1 = 201%nat ∧
    run (POST (mkRequest (BodyObject (mallory_fields "hunter2")) "pepper")) db1
    = (Value r2, db2) ∧
    status r2 = 409%nat ∧
    length (List.filter (same_email "a@x.com") (rows db2)) = 1%nat.
Proof.
  split; [split; [apply alice_taken|]|].
  - apply (proj1 duplicate_registration_conflicts (mallory_fields "hunter2") "salt"
             "a@x.com" "mallory" (mkDb [alice_row] []));
      [reflexivity|discriminate|reflexivity|discriminate|reflexivity|apply alice_taken].
  - apply (proj2 duplicate_registration_conflicts alice_fields
             (mallory_fields "hunter2") "salt" "pepper" "a@x.com" "alice" "mallory"
             "secret123" (Some "") empty_db);
      [exact alice_well_formed|apply nobody_stored|reflexivity|reflexivity
      |discriminate|reflexivity].
Defined.

(** X23 at a registration without a password. *)
Lemma missing_field_is_refused_witness :
  truthy (field (BodyObject (mallory_fields "")) "password") = false ∧
  run (POST (mkRequest (BodyObject (mallory_fields "")) "salt")) (mkDb [alice_row] [])
  = (Value (mkResponse 400 (ErrorPayload "Mangler felter")), mkDb [alice_row] []).
Proof.
  split; [reflexivity|].
  apply (missing_field_is_refused (mkRequest (BodyObject (mallory_fields "")) "salt")).
  - reflexivity.
  - right. right. reflexivity.
Defined.

(** C8, the claim as first stated, fails: the token carries the claim
    [userId: 0], and the session comes back with a user that has no id. *)
Lemma falsy_userId_counterexample :
  let token : obj := {[ "userId" := JNum 0 ]} in
  token !! "userId" = Some (JNum 0) ∧
  Session.user (session (Session.mk None ∅) (Some token)) = Some ∅ ∧
  (∅ : obj) !! "id" = None.
Proof. by repeat split. Qed.

(** C8 as amended, at a token that carries a non-zero numeric id and a
    session that has a user with a name. *)
Lemma session_derivation_witness :
  let token : obj := {[ "userId" := JNum 1 ]} in
  let sess := Session.mk (Some {[ "name" := JStr "alice" ]}) ∅ in
  truthy (opt_prop (Some token) "userId") = true ∧
  ∃ u, Session.user (session sess (Some token)) = Some u ∧
       u !! "id" = Some (JNum 1) ∧
       u !! "name" = Some (JStr "alice").
Proof.
  assert (truthy (opt_prop (Some ({[ "userId" := JNum 1 ]} : obj)) "userId") = true)
    as Htruthy by reflexivity.
  split; [exact Htruthy|].
  destruct (proj2 (proj2 (session_derivation
                            (Session.mk (Some {[ "name" := JStr "alice" ]}) ∅)
                            (Some {[ "userId" := JNum 1 ]}))) Htruthy)
    as (u & Hu & Hid & Hrest).
  exists u. split; [exact Hu|]. split; [exact Hid|].
  rewrite (Hrest "name"); [reflexivity|discriminate].
Defined.

(** C10 at the spec's scenario: alice registers through the form with the
    display-name input blank; the row keeps the empty string, and her
    sign-in returns it as name. *)
Lemma empty_display_name_is_kept_witness :
  (∃ r db1 u,
     run (POST (mkRequest (form_body alice_form) "salt")) empty_db = (Value r, db1) ∧
     status r = 201%nat ∧
     rows db1 = (rows empty_db ++ [u])%list ∧
     User.email u = Form.email alice_form ∧
     User.displayName u = Some (Form.displayName alice_form)) ∧
  ∃ u, accepted (mkDb [alice_row] [])
         (Some (Credentials.mk (Some "a@x.com") (Some "secret123"))) u ∧
       (User.displayName u = Some "" →
        identity_of alice_row !! "name" = Some (JStr "")) ∧
       (User.displayName u = None →
        identity_of alice_row !! "name" = Some (JStr (User.username u))) ∧
       (∀ dn, User.displayName u = Some dn →
        identity_of alice_row !! "name" = Some (JStr dn)).
Proof.
  split.
  - apply (proj2 empty_display_name_is_kept alice_form "salt" empty_db);
      [discriminate|discriminate|discriminate|apply nobody_stored].
  - apply (proj1 empty_display_name_is_kept (mkDb [alice_row] [])
             (logged CallFindUnique (mkDb [alice_row] []))
             (Some (Credentials.mk (Some "a@x.com") (Some "secret123")))
             (identity_of alice_row)).
    reflexivity.
Defined.

End Concrete.

(** * Further properties of the handlers *)

Section Endpoint.
Context `{!Bcrypt, !Schema}.

#[local] Ltac run_handler :=
  cbv beta iota zeta delta
    [run POST POST_with try_catch bind ret throw skip modify gets destructure
     prisma_user_findFirst prisma_user_create bcrypt_hash_js log_call body salt
     field readable logged].

(** Every way the handler, served alone, can go. *)
Lemma POST_cases (req : Request) (db : Db) :
  (readable (body req) = false ∧
   run (POST req) db = (Value (mkResponse 500 (ErrorPayload "Serverfeil")), db)) ∨
  (readable (body req) = true ∧
   (truthy (field (body req) "email") = false ∨
    truthy (field (body req) "username") = false ∨
    truthy (field (body req) "password") = false) ∧
   run (POST req) db = (Value (mkResponse 400 (ErrorPayload "Mangler felter")), db)) ∨
  (∃ e n,
     field (body req) "email" = JStr e ∧ field (body req) "username" = JStr n ∧
     taken e n db ∧
     run (POST req) db
     = (Value (mkResponse 409 (ErrorPayload "bruker finnes allerede")),
        logged CallFindFirst db)) ∨
  (∃ db',
     run (POST req) db = (Value (mkResponse 500 (ErrorPayload "Serverfeil")), db') ∧
     (db' = logged CallFindFirst db ∨
      db' = logged CallCreate (logged CallFindFirst db))) ∨
  (∃ o e n p d,
     body req = BodyObject o ∧ well_formed o e n p d ∧
     find (clashes e n) (rows db) = None ∧
     run (POST req) db
     = (Value (mkResponse 201 (UserPayload (new_id (rows db)) e n)),
        mkDb (rows db ++ [User.mk (new_id (rows db)) e n d
                            (Some (bcrypt_hash p 12 (salt req)))])
             (calls db ++ [CallFindFirst; CallCreate]))).
Proof.
  destruct req as [b s]. destruct b as [| |o|].
  - left. by split.
  - left. by split.
  - destruct (truthy (prop o "email")) eqn:Te;
      [|right; left; split; [done|]; split; [by left|];
        run_handler; by rewrite Te].
    destruct (truthy (prop o "username")) eqn:Tn;
      [|right; left; split; [done|]; split; [by right; left|];
        run_handler; by rewrite Te, Tn].
    destruct (truthy (prop o "password")) eqn:Tp;
      [|right; left; split; [done|]; split; [by right; right|];
        run_handler; by rewrite Te, Tn, Tp].
    destruct (prop o "email") as [| |be|ne|e] eqn:He;
      try (right; right; right; left; eexists; split; [|by left];
           run_handler; by rewrite He, Te, Tn, Tp).
    destruct (prop o "username") as [| |bn|nn|n] eqn:Hn;
      try (right; right; right; left; eexists; split; [|by left];
           run_handler; by rewrite He, Hn, Te, Tn, Tp).
    assert (e ≠ "") as Hne by (intros ->; done).
    assert (n ≠ "") as Hnn by (intros ->; done).
    destruct (find (clashes e n) (rows db)) as [u|] eqn:Hfind.
    { right; right; left. exists e, n. split; [done|]. split; [done|].
      assert (taken e n db) as Htaken.
      { apply find_some in Hfind as [Hin Hu]. exists u.
        split; [by apply list_elem_of_In|].
        unfold clashes, same_email, same_username in Hu.
        apply orb_prop in Hu as [Hu|Hu]; apply bool_decide_eq_true in Hu; auto. }
      split; [done|].
      unfold POST. simpl. apply (POST_with_conflict skip o s e n db); by rewrite ?Tp. }
    destruct (prop o "password") as [| |bp|np|p] eqn:Hp; try done;
      try (right; right; right; left; eexists; split; [|by left];
           run_handler; rewrite He, Hn, Hp, Te, Tn, Tp; simpl; by rewrite Hfind).
    assert (p ≠ "") as Hnp by (intros ->; done).
    destruct (optional_column (prop o "displayName")) as [d|] eqn:Hd.
    + right; right; right; right. exists o, e, n, p, d.
      split; [done|]. split; [by repeat split|]. split; [done|].
      by apply POST_registers.
    + right; right; right; left. eexists. split; [|by right].
      run_handler. rewrite He, Hn, Hp, Te, Tn, Tp. simpl. rewrite Hfind. simpl.
      by rewrite Hd.
  - right; left. split; [done|]. split; [by left|]. done.
Qed.

(** What an answer of 201 did to the rows. *)
Lemma rows_after_created (req : Request) (db db' : Db) (r : Response) :
  run (POST req) db = (Value r, db') →
  status r = 201%nat →
  ∃ e n d h,
    (∀ u, u ∈ rows db → User.email u ≠ e ∧ User.username u ≠ n) ∧
    rows db' = (rows db ++ [User.mk (new_id (rows db)) e n d h])%list.
Proof.
  intros Hrun Hst.
  destruct (POST_cases req db)
    as [[_ H1]|[(_ & _ & H1)|[(e & n & _ & _ & _ & H1)|[(db1 & H1 & _)|H1]]]];
    try (rewrite H1 in Hrun; by simplify_eq).
  destruct H1 as (o & e & n & p & d & Hbody & Hwf & Hfind & H1).
  rewrite H1 in Hrun. simplify_eq. eexists e, n, d, _.
  split; [by apply find_clashes_None|]. done.
Qed.

(** Any answer but 201 left the rows alone. *)
Lemma not_created_rows (req : Request) (db db' : Db) (r : Response) :
  run (POST req) db = (Value r, db') →
  status r ≠ 201%nat →
  rows db' = rows db.
Proof.
  intros Hrun Hst.
  destruct (POST_cases req db)
    as [[_ H1]|[(_ & _ & H1)|[(e & n & _ & _ & _ & H1)|[(db1 & H1 & Hdb)|H1]]]];
    try (rewrite H1 in Hrun; by simplify_eq).
  - rewrite H1 in Hrun. simplify_eq. by destruct Hdb as [->| ->].
  - destruct H1 as (o & e & n & p & d & _ & _ & _ & H1).
    rewrite H1 in Hrun. by simplify_eq.
Qed.

(** X1. No exception leaves the handler, whatever the body and whatever
    other requests do meanwhile: it always answers, with 201, 400, 409 or
    500. *)
Theorem handler_always_answers
    (concurrent : Eff Db unit) (req : Request) (db : Db) :
  ∃ r db',
    run (POST_with concurrent req) db = (Value r, db') ∧
    handler_status (status r).
Proof.
  unfold handler_status. run_handler.
  repeat case_match; simplify_eq; eexists _, _; (split; [reflexivity|]);
    simpl; auto.
Qed.

(** X2. An answer of 201 means one row was added, and which: the body was an
    object with three non-empty strings and a usable display name, nobody
    held the email or the username, the row has those fields with the bcrypt
    hash at cost 12 in place of the password, and the id answered is the
    row's. *)
Theorem created_means_stored (req : Request) (db db' : Db) (r : Response) :
  run (POST req) db = (Value r, db') →
  status r = 201%nat →
  ∃ o e n p d,
    body req = BodyObject o ∧ well_formed o e n p d ∧
    (∀ u, u ∈ rows db → User.email u ≠ e ∧ User.username u ≠ n) ∧
    json r = UserPayload (new_id (rows db)) e n ∧
    rows db' = (rows db ++ [User.mk (new_id (rows db)) e n d
                              (Some (bcrypt_hash p 12 (salt req)))])%list.
Proof.
  intros Hrun Hst.
  destruct (POST_cases req db)
    as [[_ H1]|[(_ & _ & H1)|[(e & n & _ & _ & _ & H1)|[(db1 & H1 & _)|H1]]]];
    try (rewrite H1 in Hrun; by simplify_eq).
  destruct H1 as (o & e & n & p & d & Hbody & Hwf & Hfind & H1).
  rewrite H1 in Hrun. simplify_eq. exists o, e, n, p, d.
  split; [done|]. split; [done|]. split; [by apply find_clashes_None|]. done.
Qed.

(** X3. Any other answer leaves the rows as they were. *)
Theorem refusal_stores_nothing (req : Request) (db db' : Db) (r : Response) :
  run (POST req) db = (Value r, db') →
  status r ≠ 201%nat →
  rows db' = rows db.
Proof. apply not_created_rows. Qed.

(** X4. Served one at a time, the handler keeps emails and usernames unique:
    if no two rows share an email or a username before a request, none do
    after it, whether or not the storage enforces it. *)
Theorem registration_keeps_rows_unique (req : Request) (db db' : Db) (r : Response) :
  unique_rows (rows db) →
  run (POST req) db = (Value r, db') →
  unique_rows (rows db').
Proof.
  intros [Hemails Hnames] Hrun.
  destruct (decide (status r = 201%nat)) as [Hst|Hst].
  - destruct (rows_after_created req db db' r Hrun Hst)
      as (e & n & d & h & Hfree & ->).
    unfold unique_rows. rewrite !fmap_app. simpl.
    split; apply NoDup_app; (split; [done|]); (split; [|apply NoDup_singleton]);
      intros x Hx Hin; apply list_elem_of_singleton in Hin as ->;
      apply list_elem_of_fmap in Hx as (u & Hu & Hin);
      destruct (Hfree u Hin); done.
  - by rewrite (not_created_rows req db db' r Hrun Hst).
Qed.

(** X5. A request makes at most one read and one insert, and never inserts
    without having read: a 400 makes no call, a 409 the read alone, a 201
    the read and then the insert, a 500 none, the read, or both. *)
Theorem store_calls_of_a_request (req : Request) (db : Db) :
  ∃ r db',
    run (POST req) db = (Value r, db') ∧
    (status r = 400%nat → calls db' = calls db) ∧
    (status r = 409%nat → calls db' = (calls db ++ [CallFindFirst])%list) ∧
    (status r = 201%nat →
       calls db' = (calls db ++ [CallFindFirst; CallCreate])%list) ∧
    (calls db' = calls db ∨
     calls db' = (calls db ++ [CallFindFirst])%list ∨
     calls db' = (calls db ++ [CallFindFirst; CallCreate])%list).
Proof.
  destruct (POST_cases req db)
    as [[_ H1]|[(_ & _ & H1)|[(e & n & _ & _ & _ & H1)|[(db1 & H1 & Hdb)|H1]]]].
  - eexists _, _. split; [exact H1|]. simpl. repeat split; try done. by left.
  - eexists _, _. split; [exact H1|]. simpl. repeat split; try done. by left.
  - eexists _, _. split; [exact H1|]. simpl. repeat split; try done. right. by left.
  - eexists _, _. split; [exact H1|]. simpl. repeat split; try done.
    destruct Hdb as [->| ->]; simpl; [right; by left|right; right].
    by rewrite <- app_assoc.
  - destruct H1 as (o & e & n & p & d & _ & _ & _ & H1).
    eexists _, _. split; [exact H1|]. simpl. repeat split; try done. right. by right.
Qed.

(** The three ways a body sent by the form can go. *)
Lemma POST_form_body (form : Form.t) (s : string) (db : Db) :
  ((Form.email form = "" ∨ Form.username form = "" ∨ Form.password form = "") ∧
   run (POST (mkRequest (form_body form) s)) db
   = (Value (mkResponse 400 (ErrorPayload "Mangler felter")), db)) ∨
  (Form.email form ≠ "" ∧ Form.username form ≠ "" ∧ Form.password form ≠ "" ∧
   taken (Form.email form) (Form.username form) db ∧
   run (POST (mkRequest (form_body form) s)) db
   = (Value (mkResponse 409 (ErrorPayload "bruker finnes allerede")),
      logged CallFindFirst db)) ∨
  (Form.email form ≠ "" ∧ Form.username form ≠ "" ∧ Form.password form ≠ "" ∧
   ¬ taken (Form.email form) (Form.username form) db ∧
   run (POST (mkRequest (form_body form) s)) db
   = (Value (mkResponse 201
               (UserPayload (new_id (rows db)) (Form.email form) (Form.username form))),
      mkDb (rows db ++
              [User.mk (new_id (rows db)) (Form.email form) (Form.username form)
                 (Some (Form.displayName form))
                 (Some (bcrypt_hash (Form.password form) 12 s))])
           (calls db ++ [CallFindFirst; CallCreate]))).
Proof.
  destruct form as [fe fn fd fp]. simpl.
  destruct (decide (fe = "")) as [->|He].
  { left. split; [by left|reflexivity]. }
  destruct (decide (fn = "")) as [->|Hn].
  { left. split; [by right; left|].
    run_handler. unfold form_body, prop. simplify_map_eq.
    rewrite (bool_decide_eq_false_2 _ He). reflexivity. }
  destruct (decide (fp = "")) as [->|Hp].
  { left. split; [by right; right|].
    run_handler. unfold form_body, prop. simplify_map_eq.
    rewrite (bool_decide_eq_false_2 _ He), (bool_decide_eq_false_2 _ Hn).
    reflexivity. }
  pose proof (form_body_well_formed (Form.mk fe fn fd fp) _ eq_refl He Hn Hp) as Hwf.
  simpl in Hwf. right.
  destruct (find (clashes fe fn) (rows db)) as [u|] eqn:Hfind.
  - left. assert (taken fe fn db) as Htaken.
    { apply find_some in Hfind as [Hin Hu]. exists u.
      split; [by apply list_elem_of_In|].
      unfold clashes, same_email, same_username in Hu.
      apply orb_prop in Hu as [Hu|Hu]; apply bool_decide_eq_true in Hu; auto. }
    repeat (split; [done|]).
    unfold POST, form_body.
    apply (POST_with_conflict skip _ s fe fn db); try done.
    simpl. unfold prop. simplify_map_eq. by apply truthy_JStr.
  - right. repeat (split; [done|]). split.
    + intros (u & Hu & Hclash).
      rewrite find_clashes_None in Hfind. destruct (Hfind u Hu). by destruct Hclash.
    + exact (POST_registers _ s _ _ _ _ db Hwf Hfind).
Qed.

(** X7. What the form sends is never answered 500 by the handler's own
    doing: four strings make a body that is answered 400 when one of the
    three required ones is empty, 409 when they are not and the email or the
    username is held, and 201 otherwise. *)
Theorem form_body_is_never_a_server_error (form : Form.t) (s : string) (db : Db) :
  ∃ r db',
    run (POST (mkRequest (form_body form) s)) db = (Value r, db') ∧
    status r ≠ 500%nat ∧
    (Form.email form = "" ∨ Form.username form = "" ∨ Form.password form = "" →
     status r = 400%nat) ∧
    (Form.email form ≠ "" → Form.username form ≠ "" → Form.password form ≠ "" →
     (taken (Form.email form) (Form.username form) db → status r = 409%nat) ∧
     (¬ taken (Form.email form) (Form.username form) db → status r = 201%nat)).
Proof.
  destruct (POST_form_body form s db)
    as [[Hempty H1]|[(He & Hn & Hp & Htaken & H1)|(He & Hn & Hp & Hfree & H1)]];
    eexists _, _; (split; [exact H1|]); simpl; (split; [done|]).
  - split; [done|]. intros. by destruct Hempty as [?|[?|?]].
  - split; [by intros [?|[?|?]]|]. intros _ _ _. by split.
  - split; [by intros [?|[?|?]]|]. intros _ _ _. by split.
Qed.

End Endpoint.

Section SignIn.
Context `{!Bcrypt, !Schema}.

(** X8. [authorize] never writes: the rows are as before whatever it
    returns. With the email or the password missing or empty it returns null
    without a call to the storage; otherwise it makes the one lookup. *)
Theorem authorize_is_read_only (c : option Credentials.t) (db : Db) :
  ∃ o db',
    run (authorize c) db = (Value o, db') ∧
    rows db' = rows db ∧
    if str_truthy (c ≫= Credentials.email) && str_truthy (c ≫= Credentials.password)
    then calls db' = (calls db ++ [CallFindUnique])%list
    else o = None ∧ db' = db.
Proof.
  cbv beta iota zeta delta
    [run authorize bind ret gets modify prisma_user_findUnique log_call].
  destruct (str_truthy (c ≫= Credentials.email));
    destruct (str_truthy (c ≫= Credentials.password)); simpl;
    try (eexists _, _; by repeat split).
  repeat case_match; eexists _, _; by repeat split.
Qed.

(** X9. The identity of a sign-in that goes through is that of a stored row
    whose email is the one submitted. *)
Theorem identity_is_of_the_email_signed_in_with
    (c : option Credentials.t) (db db' : Db) (ident : obj) :
  run (authorize c) db = (Value (Some ident), db') →
  ∃ e u,
    c ≫= Credentials.email = Some e ∧
    u ∈ rows db ∧ User.email u = e ∧
    ident !! "email" = Some (JStr e) ∧
    ident !! "id" = Some (User.id u).
Proof.
  intros Hrun.
  apply authorize_Some in Hrun
    as (e & p & u & h & -> & _ & _ & Hfind & _ & _ & _ & -> & _).
  apply find_some in Hfind as [Hin Hu].
  apply bool_decide_eq_true in Hu.
  exists e, u. split; [done|]. split; [by apply list_elem_of_In|].
  split; [done|]. unfold identity_of. rewrite Hu. by simplify_map_eq.
Qed.

(** X10. After a registration, a sign-in with the registered email and a
    password that bcrypt does not verify against the stored hash is refused. *)
Theorem other_password_is_refused_after_registration
    (o : obj) (s e n p p' : string) (d : option string) (db : Db) :
  well_formed o e n p d →
  (∀ u, u ∈ rows db → User.email u ≠ e ∧ User.username u ≠ n) →
  bcrypt_compare p' (bcrypt_hash p 12 s) = false →
  ∃ r db1 db2,
    run (POST (mkRequest (BodyObject o) s)) db = (Value r, db1) ∧
    status r = 201%nat ∧
    run (authorize (Some (Credentials.mk (Some e) (Some p')))) db1
    = (Value None, db2).
Proof.
  intros Hwf Hfree Hwrong.
  pose proof Hwf as (_ & He & _).
  apply find_clashes_None in Hfree as Hfind.
  set (row := User.mk (new_id (rows db)) e n d (Some (bcrypt_hash p 12 s))).
  set (db1 := mkDb (rows db ++ [row]) (calls db ++ [CallFindFirst; CallCreate])).
  set (c := Some (Credentials.mk (Some e) (Some p'))).
  destruct (authorize_returns db1 c) as (o' & db2 & Hrun).
  exists (mkResponse 201 (UserPayload (new_id (rows db)) e n)), db1, db2.
  split; [exact (POST_registers o s e n p d db Hwf Hfind)|].
  split; [done|]. rewrite Hrun.
  destruct (decide (p' = "")) as [->|Hp'].
  { revert Hrun. subst c.
    cbv beta iota zeta delta [run authorize bind ret]. simpl.
    rewrite orb_true_r. by intros [= <- <-]. }
  assert (rejection db1 c) as Hrej.
  { apply (WrongPassword db1 e p' row (bcrypt_hash p 12 s)); try done.
    apply find_same_email_fresh; [|done]. intros u Hu. by destruct (Hfree u Hu). }
  apply rejection_null in Hrej. rewrite Hrun in Hrej. simpl in Hrej.
  by simplify_eq.
Qed.

Lemma find_app_Some {A} (f : A → bool) (l k : list A) (x : A) :
  find f l = Some x → find f (l ++ k) = Some x.
Proof.
  induction l as [|y l IH]; simpl; [done|]. destruct (f y); [done|exact IH].
Qed.

(** X14. A registration, whatever its outcome, breaks no sign-in that went
    through before it: the same credentials still go through after it, with
    the same identity. *)
Theorem registration_keeps_existing_sign_ins
    (c : option Credentials.t) (ident : obj) (req : Request)
    (db db1 db' : Db) (r : Response) :
  run (authorize c) db = (Value (Some ident), db1) →
  run (POST req) db = (Value r, db') →
  run (authorize c) db' = (Value (Some ident), logged CallFindUnique db').
Proof.
  intros Hauth Hpost.
  apply authorize_Some in Hauth
    as (e & p & u & h & -> & He & Hp & Hfind & Hh & Hnh & Hok & -> & _).
  apply (authorize_accepts db' e p h u); try done.
  destruct (decide (status r = 201%nat)) as [Hst|Hst].
  - destruct (rows_after_created req db db' r Hpost Hst)
      as (e' & n' & d' & h' & _ & ->).
    by apply find_app_Some.
  - by rewrite (not_created_rows req db db' r Hpost Hst).
Qed.

End SignIn.

Section TokenAndSession.

(** X11. Over any run of sign-ins and refreshes the jwt callback touches
    [userId] alone, and leaves in it the id of the user of the last sign-in;
    with no sign-in in the run the token is as it was. *)
Theorem token_after_events (events : list (option obj)) (token : obj) :
  (∀ k, k ≠ "userId" → token_after events token !! k = token !! k) ∧
  token_after events token !! "userId"
  = match last (logins events) with
    | Some user => Some (prop user "id")
    | None => token !! "userId"
    end.
Proof.
  unfold token_after, logins.
  induction events as [|event events [IHframe IHid]] using rev_ind; [done|].
  rewrite foldl_app, omap_app. simpl. destruct event as [user|]; simpl.
  - rewrite last_snoc. split; [|apply lookup_insert_eq].
    intros k Hk. rewrite lookup_insert_ne by done. by apply IHframe.
  - rewrite app_nil_r. by split.
Qed.

(** X12. Deriving the session twice from the same token changes nothing the
    second time. *)
Theorem session_is_idempotent (sess : Session.t) (token : option obj) :
  session (session sess token) token = session sess token.
Proof.
  unfold session.
  destruct (truthy (opt_prop token "userId")) eqn:Htruthy;
    destruct sess as [[u|] rest]; simpl; rewrite ?Htruthy; simpl;
    by rewrite ?insert_insert_eq.
Qed.

(** X13. The session callback changes [session.user.id] and nothing else:
    every other property of the user, and every other property of the
    session, is as it was (a missing user counting as an empty one); the id
    becomes the token's [userId] when that is truthy, and otherwise stays as
    it was, so that with no token, or a token without a usable [userId], an
    id the session already carried is kept. *)
Theorem session_changes_only_the_id (sess : Session.t) (token : option obj) :
  ∃ u,
    session sess token = Session.mk (Some u) (Session.rest sess) ∧
    (∀ k, k ≠ "id" → u !! k = default ∅ (Session.user sess) !! k) ∧
    u !! "id" = if truthy (opt_prop token "userId")
                then Some (opt_prop token "userId")
                else default ∅ (Session.user sess) !! "id".
Proof.
  unfold session.
  destruct (truthy (opt_prop token "userId")) eqn:Htruthy;
    destruct sess as [[u|] rest]; simpl;
    eexists; (split; [reflexivity|]); split;
    try (intros k Hk; by rewrite ?lookup_insert_ne);
    by rewrite ?lookup_insert_eq.
Qed.

End TokenAndSession.

Section Page.

#[local] Ltac run_page :=
  cbv beta iota zeta delta
    [run onSubmit bind ret throw skip modify gets try_catch finally fetch signIn
     perform setError setLoading loading error effects added].

Lemma added_app (ui : Ui) (e : string) (l : bool) (new : list effect) :
  added ui (mkUi e l (effects ui ++ new)) = new.
Proof. unfold added. simpl. by rewrite drop_app_length. Qed.

(** X15. A submit never throws. While one is under way it does nothing at
    all: no request, no change of the message or the flag, not even
    [preventDefault]. From the idle state, whatever the network and [signIn]
    do, it ends with the loading flag false again, having called
    [preventDefault] first, then made the one registration call, and no
    other. *)
Theorem submit_does_nothing_or_ends_idle (form : Form.t) (development : bool)
    (net : fetch_behaviour) (auth : signIn_behaviour) (ui : Ui) :
  ∃ ui',
    run (onSubmit form development net auth) ui = (Value tt, ui') ∧
    (loading ui = true → ui' = ui) ∧
    (loading ui = false →
     loading ui' = false ∧
     ∃ rest, added ui ui' = PreventDefault :: Fetch form :: rest ∧
             ∀ f, Fetch f ∉ rest).
Proof.
  destruct ui as [err [|] effs]; simpl.
  { eexists. split; [reflexivity|]. by split. }
  run_page.
  repeat case_match; simplify_eq;
    eexists; (split; [reflexivity|]); (split; [done|]); intros _;
    (split; [reflexivity|]); eexists;
    rewrite <- ?app_assoc; simpl; rewrite drop_app_length.
  all: split; [reflexivity|].
  all: intros f Hf; repeat (apply elem_of_cons in Hf as [Hf|Hf]; [done|]);
    by apply elem_of_nil in Hf.
Qed.

#[local] Ltac in_list H :=
  repeat (apply elem_of_cons in H as [H|H]; [by simplify_eq|]);
  by apply elem_of_nil in H.

(** X16. The page navigates exactly when the registration call was answered
    in time with an ok status and [signIn] returned no error: it then goes
    to [/profile], once, as its last act, and shows no message. When
    [signIn] returned an error instead, it shows the wrong-credentials
    message and stays. *)
Theorem navigation_means_registered_and_signed_in
    (form : Form.t) (development : bool)
    (net : fetch_behaviour) (auth : signIn_behaviour) (ui : Ui) :
  loading ui = false →
  ∃ ui',
    run (onSubmit form development net auth) ui = (Value tt, ui') ∧
    ((∃ path, RouterPush path ∈ added ui ui') ↔
     registered_in_time net ∧ signed_in auth) ∧
    (registered_in_time net → signed_in auth →
     error ui' = "" ∧
     added ui ui'
     = [PreventDefault; Fetch form;
        SignIn (Form.email form) (Form.password form); RouterPush "/profile"]) ∧
    (registered_in_time net →
     ∀ msg, auth = SignInResult (Some msg) → msg ≠ "" →
       error ui' = "Feil e‑post/passord" ∧
       added ui ui'
       = [PreventDefault; Fetch form;
          SignIn (Form.email form) (Form.password form)]).
Proof.
  destruct ui as [err ld effs]. simpl. intros ->.
  unfold registered_in_time, signed_in.
  destruct net as [t st d|t e|]; [destruct (t <=? timeout_ms)%N eqn:Ht;
    [destruct (res_ok st) eqn:Hok; [destruct auth as [r|e];
      [destruct (str_truthy r) eqn:Hr|]|]|]| |].
  all: run_page; rewrite ?Ht, ?Hok; simpl; rewrite ?Hr; simpl.
  all: repeat case_match; simplify_eq.
  all: eexists; (split; [reflexivity|]).
  all: rewrite <- ?app_assoc; simpl; rewrite drop_app_length.
  all: try apply N.leb_le in Ht; try apply N.leb_gt in Ht.
  all: split; [split|split].
  all: try (intros [path Hin]; in_list Hin).
  all: try (intros [(t' & st' & d' & ? & ? & ?) (r' & ? & ?)]; simplify_eq;
            try lia; congruence).
  all: try (intros (t' & st' & d' & ? & ? & ?) (r' & ? & ?); simplify_eq;
            try lia; try congruence; done).
  all: try (intros (t' & st' & d' & ? & ? & ?) msg ? Hmsg; simplify_eq;
            try lia; try congruence; try done;
            simpl in *; by rewrite ?(bool_decide_eq_false_2 _ Hmsg) in *).
  - intros _. split; [by eexists _, _, _|by eexists].
  - exists "/profile". do 3 apply list_elem_of_further. apply list_elem_of_here.
Qed.

(** X17. [signIn] is attempted exactly when the registration call was
    answered in time with an ok status, never after a refusal, a failure or
    a timeout; and it is given the email and the password of the form. *)
Theorem sign_in_only_after_registration
    (form : Form.t) (development : bool)
    (net : fetch_behaviour) (auth : signIn_behaviour) (ui : Ui) :
  loading ui = false →
  ∃ ui',
    run (onSubmit form development net auth) ui = (Value tt, ui') ∧
    ((∃ em pw, SignIn em pw ∈ added ui ui') ↔ registered_in_time net) ∧
    ∀ em pw, SignIn em pw ∈ added ui ui' →
      em = Form.email form ∧ pw = Form.password form.
Proof.
  destruct ui as [err ld effs]. simpl. intros ->.
  unfold registered_in_time.
  destruct net as [t st d|t e|]; [destruct (t <=? timeout_ms)%N eqn:Ht;
    [destruct (res_ok st) eqn:Hok|]| |].
  all: run_page; rewrite ?Ht, ?Hok; simpl.
  all: repeat case_match; simplify_eq.
  all: eexists; (split; [reflexivity|]).
  all: rewrite <- ?app_assoc; simpl; rewrite drop_app_length.
  all: try apply N.leb_le in Ht; try apply N.leb_gt in Ht.
  all: split; [split|].
  all: try (intros (em & pw & Hin); in_list Hin).
  all: try (intros em pw Hin; in_list Hin).
  all: try (intros (t' & st' & d' & ? & ? & ?); simplify_eq; try lia; congruence).
  all: try (intros _; by eexists _, _, _).
  all: try (intros _; eexists _, _; do 2 apply list_elem_of_further;
            apply list_elem_of_here).
Qed.

(** X18. A registration the endpoint refuses is shown by its status: 409 as
    the conflict message; 400 as the message the endpoint sent, or the
    missing-fields message when it sent none or an empty one; anything else
    as the server-error message. Nothing follows the call: no sign-in, no
    navigation, and the flag is false again. *)
Theorem refusal_is_shown_by_status
    (form : Form.t) (development : bool) (t : N) (st : nat)
    (data_error : option string) (auth : signIn_behaviour) (ui : Ui) :
  loading ui = false →
  (t ≤ timeout_ms)%N →
  res_ok st = false →
  run (onSubmit form development (Responds t st data_error) auth) ui
  = (Value tt,
     mkUi (if (st =? 409)%nat then "Bruker finnes allerede"
           else if (st =? 400)%nat
           then match data_error with
                | Some msg => if bool_decide (msg = "") then "Mangler felter" else msg
                | None => "Mangler felter"
                end
           else "Serverfeil – prøv igjen")
          false
          (effects ui ++ [PreventDefault; Fetch form])).
Proof.
  destruct ui as [err ld effs]. simpl. intros -> Ht Hok.
  apply N.leb_le in Ht. run_page. rewrite Ht, Hok. simpl.
  destruct (st =? 409)%nat; [by rewrite <- app_assoc|].
  destruct (st =? 400)%nat; [|by rewrite <- app_assoc].
  destruct data_error as [msg|]; simpl; [|by rewrite <- app_assoc].
  destruct (bool_decide (msg = "")); simpl; by rewrite <- app_assoc.
Qed.

(** X19. An error thrown by [signIn] is told apart by its name like one
    thrown by the registration call: the network message, or, for an error
    named AbortError, the timeout message, although no timer has fired. It
    is logged to the console in development only. *)
Theorem sign_in_throw_is_shown_by_name
    (form : Form.t) (development : bool) (t : N) (st : nat)
    (data_error : option string) (e : exn) (ui : Ui) :
  loading ui = false →
  (t ≤ timeout_ms)%N →
  res_ok st = true →
  run (onSubmit form development (Responds t st data_error) (SignInThrows e)) ui
  = (Value tt,
     mkUi (if bool_decide (exn_name e = "AbortError")
           then "Tidsavbrudd – prøv igjen"
           else "Nettverksfeil – sjekk tilkoblingen")
          false
          (effects ui ++ [PreventDefault; Fetch form;
                          SignIn (Form.email form) (Form.password form)] ++
           if development then [ConsoleError e] else [])).
Proof.
  destruct ui as [err ld effs]. simpl. intros -> Ht Hok.
  apply N.leb_le in Ht. run_page. rewrite Ht, Hok. simpl.
  destruct (bool_decide (exn_name e = "AbortError")), development; simpl;
    by rewrite <- !app_assoc.
Qed.

(** X20. Outside development nothing is logged to the console; in
    development what is logged is the error that was caught, and a submit
    that catches none logs nothing. *)
Theorem console_only_in_development
    (form : Form.t) (development : bool)
    (net : fetch_behaviour) (auth : signIn_behaviour) (ui : Ui) :
  loading ui = false →
  ∃ ui',
    run (onSubmit form development net auth) ui = (Value tt, ui') ∧
    (development = false → ∀ e, ConsoleError e ∉ added ui ui') ∧
    (registered_in_time net → (∃ r, auth = SignInResult r) →
     ∀ e, ConsoleError e ∉ added ui ui') ∧
    ∀ e, ConsoleError e ∈ added ui ui' →
      error ui' = if bool_decide (exn_name e = "AbortError")
                  then "Tidsavbrudd – prøv igjen"
                  else "Nettverksfeil – sjekk tilkoblingen".
Proof.
  destruct ui as [err ld effs]. simpl. intros ->.
  unfold registered_in_time.
  destruct net as [t st d|t e|]; [destruct (t <=? timeout_ms)%N eqn:Ht;
    [destruct (res_ok st) eqn:Hok|]| |].
  all: run_page; rewrite ?Ht, ?Hok; simpl.
  all: repeat case_match; simplify_eq.
  all: eexists; (split; [reflexivity|]).
  all: rewrite <- ?app_assoc; simpl; rewrite drop_app_length.
  all: try apply N.leb_le in Ht; try apply N.leb_gt in Ht.
  all: split; [|split].
  all: try (intros _ x Hin; in_list Hin).
  all: try (intros ? x Hin; in_list Hin).
  all: try (intros x Hin; in_list Hin).
  all: try (intros (t' & st' & d' & ? & ? & ?) [r' ?]; simplify_eq;
            try lia; congruence).
  all: try (intros _ _ x Hin; in_list Hin).
  all: intros x Hin;
    repeat (apply elem_of_cons in Hin as [Hin|Hin];
            [try done; simplify_eq;
             match goal with
             | Hname : bool_decide (exn_name _ = _) = _ |- _ => by rewrite Hname
             | _ => done
             end|]);
    by apply elem_of_nil in Hin.
Qed.

End Page.

Section EndToEnd.
Context `{!Bcrypt, !Schema}.

(** X21. The form against the endpoint: when the endpoint serves what the
    form sent and answers in time, a form with an empty required input is
    shown the missing-fields message and nothing is stored; one whose email
    or username is held is shown the conflict message and nothing is stored;
    any other is stored as a row, and the page goes on to sign in with the
    same email and password. *)
Theorem form_against_endpoint
    (form : Form.t) (s : string) (t : N) (development : bool)
    (auth : signIn_behaviour) (db : Db) (ui : Ui) :
  loading ui = false →
  (t ≤ timeout_ms)%N →
  ∃ r db' ui',
    run (POST (mkRequest (form_body form) s)) db = (Value r, db') ∧
    run (onSubmit form development (seen t r) auth) ui = (Value tt, ui') ∧
    (Form.email form = "" ∨ Form.username form = "" ∨ Form.password form = "" →
     db' = db ∧ error ui' = "Mangler felter" ∧
     added ui ui' = [PreventDefault; Fetch form]) ∧
    (Form.email form ≠ "" → Form.username form ≠ "" → Form.password form ≠ "" →
     (taken (Form.email form) (Form.username form) db →
      rows db' = rows db ∧ error ui' = "Bruker finnes allerede" ∧
      added ui ui' = [PreventDefault; Fetch form]) ∧
     (¬ taken (Form.email form) (Form.username form) db →
      (∃ u, rows db' = (rows db ++ [u])%list ∧
            User.email u = Form.email form ∧
            User.username u = Form.username form ∧
            User.displayName u = Some (Form.displayName form) ∧
            User.passwordHash u = Some (bcrypt_hash (Form.password form) 12 s)) ∧
      SignIn (Form.email form) (Form.password form) ∈ added ui ui')).
Proof.
  intros Hidle Ht.
  destruct ui as [err ld effs]. simpl in Hidle. subst ld.
  apply N.leb_le in Ht.
  destruct (POST_form_body form s db)
    as [[Hempty H1]|[(He & Hn & Hp & Htaken & H1)|(He & Hn & Hp & Hfree & H1)]].
  - eexists _, _, _. split; [exact H1|]. split.
    { cbv beta iota zeta delta
        [run onSubmit bind ret throw skip modify gets try_catch finally fetch
         perform setError setLoading loading error effects seen status json].
      rewrite Ht. simpl. reflexivity. }
    split.
    + intros _. split; [done|]. split; [done|].
      unfold added. simpl. rewrite <- app_assoc. by rewrite drop_app_length.
    + intros. by destruct Hempty as [?|[?|?]].
  - eexists _, _, _. split; [exact H1|]. split.
    { cbv beta iota zeta delta
        [run onSubmit bind ret throw skip modify gets try_catch finally fetch
         perform setError setLoading loading error effects seen status json].
      rewrite Ht. simpl. reflexivity. }
    split; [by intros [?|[?|?]]|]. intros _ _ _. split; [|done].
    intros _. split; [done|]. split; [done|].
    unfold added. simpl. rewrite <- app_assoc. by rewrite drop_app_length.
  - destruct auth as [r_error|e].
    + destruct (str_truthy r_error) eqn:Hr.
      all: eexists _, _, _; (split; [exact H1|]); split;
        [cbv beta iota zeta delta
           [run onSubmit bind ret throw skip modify gets try_catch finally fetch
            signIn perform setError setLoading loading error effects seen status
            json];
         rewrite Ht; simpl; rewrite Hr; reflexivity|].
      all: split; [by intros [?|[?|?]]|]; intros _ _ _; split; [done|].
      all: intros _; split; [by eexists|].
      all: unfold added; simpl; rewrite <- !app_assoc, drop_app_length.
      all: do 2 apply list_elem_of_further; apply list_elem_of_here.
    + destruct (bool_decide (exn_name e = "AbortError")) eqn:Hname, development.
      all: eexists _, _, _; (split; [exact H1|]); split;
        [cbv beta iota zeta delta
           [run onSubmit bind ret throw skip modify gets try_catch finally fetch
            signIn perform setError setLoading loading error effects seen status
            json];
         rewrite Ht; simpl; rewrite Hname; reflexivity|].
      all: split; [by intros [?|[?|?]]|]; intros _ _ _; split; [done|].
      all: intros _; split; [by eexists|].
      all: unfold added; simpl; rewrite <- !app_assoc, drop_app_length.
      all: do 2 apply list_elem_of_further; apply list_elem_of_here.
Qed.

End EndToEnd.

(** * The further properties at concrete inputs *)

Section FurtherConcrete.
#[local] Existing Instance demo_bcrypt.
#[local] Existing Instance demo_schema.

Lemma bob_registers :
  run (POST (mkRequest (BodyObject bob_fields) "salt")) alice_db
  = (Value (mkResponse 201 (UserPayload (JNum 2) "b@x.com" "bob")),
     mkDb [alice_row; bob_row] [CallFindFirst; CallCreate]).
Proof. reflexivity. Qed.

Lemma mallory_refused :
  run (POST (mkRequest (BodyObject (mallory_fields "hunter2")) "salt")) alice_db
  = (Value (mkResponse 409 (ErrorPayload "bruker finnes allerede")),
     mkDb [alice_row] [CallFindFirst]).
Proof. reflexivity. Qed.

Lemma alice_signs_in :
  run (authorize alice_credentials) alice_db
  = (Value (Some (identity_of alice_row)), logged CallFindUnique alice_db).
Proof. reflexivity. Qed.

(** X2 at bob's registration on a storage that holds alice. *)
Lemma created_means_stored_witness :
  ∃ o e n p d,
    BodyObject bob_fields = BodyObject o ∧ well_formed o e n p d ∧
    (∀ u, u ∈ rows alice_db → User.email u ≠ e ∧ User.username u ≠ n) ∧
    UserPayload (JNum 2) "b@x.com" "bob" = UserPayload (new_id (rows alice_db)) e n ∧
    [alice_row; bob_row]
    = (rows alice_db ++ [User.mk (new_id (rows alice_db)) e n d
                           (Some (bcrypt_hash p 12 "salt"))])%list.
Proof.
  exact (created_means_stored (mkRequest (BodyObject bob_fields) "salt") alice_db
           _ _ bob_registers eq_refl).
Defined.

(** X3 at mallory's refused registration. *)
Lemma refusal_stores_nothing_witness :
  rows (mkDb [alice_row] [CallFindFirst]) = rows alice_db.
Proof.
  apply (refusal_stores_nothing
           (mkRequest (BodyObject (mallory_fields "hunter2")) "salt") alice_db _ _
           mallory_refused).
  discriminate.
Defined.

(** X4 at bob's registration: alice alone before, alice and bob after. *)
Lemma registration_keeps_rows_unique_witness :
  unique_rows (rows alice_db) ∧ unique_rows [alice_row; bob_row].
Proof.
  assert (unique_rows (rows alice_db)) as Hunique
    by (split; apply NoDup_singleton).
  split; [exact Hunique|].
  exact (registration_keeps_rows_unique
           (mkRequest (BodyObject bob_fields) "salt") alice_db _ _
           Hunique bob_registers).
Defined.

(** X9 at alice's sign-in. *)
Lemma identity_is_of_the_email_signed_in_with_witness :
  ∃ e u,
    alice_credentials ≫= Credentials.email = Some e ∧
    u ∈ rows alice_db ∧ User.email u = e ∧
    identity_of alice_row !! "email" = Some (JStr e) ∧
    identity_of alice_row !! "id" = Some (User.id u).
Proof.
  exact (identity_is_of_the_email_signed_in_with alice_credentials alice_db _ _
           alice_signs_in).
Defined.

(** X10 at alice's registration followed by a sign-in with a guess. *)
Lemma other_password_is_refused_after_registration_witness :
  ∃ r db1 db2,
    run (POST (mkRequest (BodyObject alice_fields) "salt")) empty_db = (Value r, db1) ∧
    status r = 201%nat ∧
    run (authorize (Some (Credentials.mk (Some "a@x.com") (Some "guess")))) db1
    = (Value None, db2).
Proof.
  apply (other_password_is_refused_after_registration alice_fields "salt"
           "a@x.com" "alice" "secret123" "guess" (Some "") empty_db).
  - exact alice_well_formed.
  - apply nobody_stored.
  - reflexivity.
Defined.

(** X14 at alice's sign-in before and after bob's registration. *)
Lemma registration_keeps_existing_sign_ins_witness :
  run (authorize alice_credentials) (mkDb [alice_row; bob_row] [CallFindFirst; CallCreate])
  = (Value (Some (identity_of alice_row)),
     logged CallFindUnique (mkDb [alice_row; bob_row] [CallFindFirst; CallCreate])).
Proof.
  exact (registration_keeps_existing_sign_ins alice_credentials _
           (mkRequest (BodyObject bob_fields) "salt") alice_db _ _ _
           alice_signs_in bob_registers).
Defined.

(** X15 at a second submit while the first is under way. *)
Lemma submit_does_nothing_or_ends_idle_witness :
  run (onSubmit alice_form false (Responds 120 201 None) (SignInResult None)) busy_ui
  = (Value tt, busy_ui).
Proof.
  destruct (submit_does_nothing_or_ends_idle alice_form false (Responds 120 201 None)
              (SignInResult None) busy_ui)
    as (ui' & Hrun & Hbusy & _).
  rewrite Hrun. by rewrite (Hbusy eq_refl).
Defined.

(** X16 at a registration answered 201 after 120 ms and a sign-in without
    error. *)
Lemma navigation_means_registered_and_signed_in_witness :
  registered_in_time (Responds 120 201 None) ∧ signed_in (SignInResult None) ∧
  ∃ ui',
    run (onSubmit alice_form false (Responds 120 201 None) (SignInResult None)) idle_ui
    = (Value tt, ui') ∧
    error ui' = "" ∧
    added idle_ui ui'
    = [PreventDefault; Fetch alice_form; SignIn "a@x.com" "secret123";
       RouterPush "/profile"].
Proof.
  assert (registered_in_time (Responds 120 201 None)) as Hreg
    by (eexists _, _, _; split; [reflexivity|]; split; [by compute|reflexivity]).
  assert (signed_in (SignInResult None)) as Hin by (by eexists).
  split; [exact Hreg|]. split; [exact Hin|].
  destruct (navigation_means_registered_and_signed_in alice_form false
              (Responds 120 201 None) (SignInResult None) idle_ui eq_refl)
    as (ui' & Hrun & _ & Hgo & _).
  exists ui'. split; [exact Hrun|]. exact (Hgo Hreg Hin).
Defined.

(** X17 at the same submit. *)
Lemma sign_in_only_after_registration_witness :
  ∃ ui',
    run (onSubmit alice_form false (Responds 120 201 None) (SignInResult None)) idle_ui
    = (Value tt, ui') ∧
    ((∃ em pw, SignIn em pw ∈ added idle_ui ui') ↔
     registered_in_time (Responds 120 201 None)) ∧
    ∀ em pw, SignIn em pw ∈ added idle_ui ui' →
      em = Form.email alice_form ∧ pw = Form.password alice_form.
Proof.
  exact (sign_in_only_after_registration alice_form false (Responds 120 201 None)
           (SignInResult None) idle_ui eq_refl).
Defined.

(** X18 at a 400 whose body carries no message. *)
Lemma refusal_is_shown_by_status_witness :
  run (onSubmit alice_form false (Responds 120 400 None) (SignInResult None)) idle_ui
  = (Value tt, mkUi "Mangler felter" false [PreventDefault; Fetch alice_form]).
Proof.
  assert ((120 ≤ timeout_ms)%N) as Ht by (by compute).
  exact (refusal_is_shown_by_status alice_form false 120 400 None
           (SignInResult None) idle_ui eq_refl Ht eq_refl).
Defined.

(** X19 at a sign-in that throws an error named AbortError. *)
Lemma sign_in_throw_is_shown_by_name_witness :
  run (onSubmit alice_form true (Responds 120 201 None)
         (SignInThrows (Exn "AbortError"))) idle_ui
  = (Value tt,
     mkUi "Tidsavbrudd – prøv igjen" false
       [PreventDefault; Fetch alice_form; SignIn "a@x.com" "secret123";
        ConsoleError (Exn "AbortError")]).
Proof.
  assert ((120 ≤ timeout_ms)%N) as Ht by (by compute).
  exact (sign_in_throw_is_shown_by_name alice_form true 120 201 None
           (Exn "AbortError") idle_ui eq_refl Ht eq_refl).
Defined.

(** X20 at a call that fails at once, in production. *)
Lemma console_only_in_development_witness :
  ∃ ui',
    run (onSubmit alice_form false (Fails 5 (Exn "TypeError")) (SignInResult None))
      idle_ui
    = (Value tt, ui') ∧
    ∀ e, ConsoleError e ∉ added idle_ui ui'.
Proof.
  destruct (console_only_in_development alice_form false (Fails 5 (Exn "TypeError"))
              (SignInResult None) idle_ui eq_refl)
    as (ui' & Hrun & Hquiet & _).
  exists ui'. split; [exact Hrun|]. exact (Hquiet eq_refl).
Defined.

(** X21 at alice's form against an empty storage. *)
Lemma form_against_endpoint_witness :
  ∃ r db' ui',
    run (POST (mkRequest (form_body alice_form) "salt")) empty_db = (Value r, db') ∧
    run (onSubmit alice_form false (seen 120 r) (SignInResult None)) idle_ui
    = (Value tt, ui') ∧
    (∃ u, rows db' = (rows empty_db ++ [u])%list ∧
          User.email u = "a@x.com" ∧
          User.username u = "alice" ∧
          User.displayName u = Some "" ∧
          User.passwordHash u = Some (bcrypt_hash "secret123" 12 "salt")) ∧
    SignIn "a@x.com" "secret123" ∈ added idle_ui ui'.
Proof.
  assert ((120 ≤ timeout_ms)%N) as Ht by (by compute).
  destruct (form_against_endpoint alice_form "salt" 120 false (SignInResult None)
              empty_db idle_ui eq_refl Ht)
    as (r & db' & ui' & Hpost & Hpage & _ & Hfilled).
  exists r, db', ui'. split; [exact Hpost|]. split; [exact Hpage|].
  apply Hfilled; try discriminate.
  intros (u & Hu & _). by apply elem_of_nil in Hu.
Defined.

End FurtherConcrete.

(** * The sign-in callback on any credentials *)

Section AuthorizeAny.
Context `{!Bcrypt}.

#[local] Ltac run_authorize :=
  cbv beta iota zeta delta
    [run authorize_any authorize bind ret throw gets modify log_call
     prisma_user_findUnique_any prisma_user_findUnique bcrypt_compare_any].




(** At string credentials the callback is [authorize]. *)
Lemma authorize_any_strings (c : option Credentials.t) (db : Db) :
  run (authorize_any (as_object c)) db = run (authorize c) db.
Proof.
  destruct c as [[[e|] [p|]]|]; run_authorize;
    unfold as_object, opt_prop, prop; simpl; simplify_map_eq;
    rewrite ?orb_true_r; done.
Qed.


(** C3, where the code departs from it. For the email of a stored user with
    a password hash, a password that is truthy but not a string makes
    [bcrypt.compare] throw, and [authorize] with it; for an email nobody
    has, the same password gives null. The two refusals are told apart. *)
Theorem non_string_password_tells_users_apart
    (db : Db) (e e' h : string) (u : User.t) (password : jsval) :
  e ≠ "" → e' ≠ "" →
  find (same_email e) (rows db) = Some u →
  User.passwordHash u = Some h → h ≠ "" →
  find (same_email e') (rows db) = None →
  truthy password = true →
  (∀ p, password ≠ JStr p) →
  run (authorize_any (credentials_of (JStr e) password)) db
  = (Thrown (Exn "Error"), logged CallFindUnique db) ∧
  run (authorize_any (credentials_of (JStr e') password)) db
  = (Value None, logged CallFindUnique db).
Proof.
  intros He He' Hfind Hh Hnh Hnone Htruthy Hnostr.
  assert (∀ x, opt_prop (credentials_of (JStr x) password) "email" = JStr x) as Hemail.
  { intros x. unfold credentials_of, opt_prop, prop. by simplify_map_eq. }
  assert (∀ x, opt_prop (credentials_of (JStr x) password) "password" = password)
    as Hpassword.
  { intros x. unfold credentials_of, opt_prop, prop. by simplify_map_eq. }
  split; run_authorize; rewrite Hemail, Hpassword, Htruthy, truthy_JStr by done;
    simpl.
  - rewrite Hfind. simpl. rewrite Hh. simpl.
    rewrite (bool_decide_eq_false_2 _ Hnh). simpl.
    destruct password as [| |b|n|p]; try done. by destruct (Hnostr p).
  - by rewrite Hnone.
Qed.

(** X22. With an email and a password that are non-empty strings, the three
    refusals give the caller the same result, null: no user with the email,
    a user with no stored hash, a password that does not verify. *)
Theorem string_rejections_are_alike
    (db1 db2 : Db) (c1 c2 : option Credentials.t) :
  rejection db1 c1 → rejection db2 c2 →
  (run (authorize_any (as_object c1)) db1).1
  = (run (authorize_any (as_object c2)) db2).1 ∧
  (run (authorize_any (as_object c1)) db1).1 = Value None.
Proof.
  intros H1 H2. rewrite !authorize_any_strings.
  by rewrite (rejection_null db1 c1 H1), (rejection_null db2 c2 H2).
Qed.

End AuthorizeAny.

(** * The body of a registration that cannot be read *)

Section UnreadableBody.
Context `{!Bcrypt, !Schema}.

(** C5, where the code departs from it. A body that is the JSON text null,
    or is not JSON, has none of the three fields, and the handler answers
    500: what [req.json()] or the destructuring throws is caught by the
    catch-all before the check of the fields is reached. Its siblings, a
    JSON primitive, an array or an object without the fields, are answered
    400 by that check. In all of them the storage is left as it was. *)
Theorem unreadable_body_is_answered_500 (s : string) (db : Db) :
  run (POST (mkRequest BodyNull s)) db
  = (Value (mkResponse 500 (ErrorPayload "Serverfeil")), db) ∧
  run (POST (mkRequest BodyUnparsable s)) db
  = (Value (mkResponse 500 (ErrorPayload "Serverfeil")), db) ∧
  run (POST (mkRequest BodyOther s)) db
  = (Value (mkResponse 400 (ErrorPayload "Mangler felter")), db) ∧
  run (POST (mkRequest (BodyObject ∅) s)) db
  = (Value (mkResponse 400 (ErrorPayload "Mangler felter")), db).
Proof. by repeat split. Qed.

End UnreadableBody.

(** * The insert under the schema of the spec *)

Section InsertUnderConstraint.
Context `{!Bcrypt}.
Variable ids : list User.t → jsval.

Lemma unique_rows_snoc (l : list User.t) (v : User.t) :
  unique_rows l →
  (∀ u, u ∈ l → User.email u ≠ User.email v ∧ User.username u ≠ User.username v) →
  unique_rows (l ++ [v]).
Proof.
  intros [Hemails Hnames] Hfree. unfold unique_rows. rewrite !fmap_app. simpl.
  split; apply NoDup_app; (split; [done|]); (split; [|apply NoDup_singleton]);
    intros x Hx Hin; apply list_elem_of_singleton in Hin as ->;
    apply list_elem_of_fmap in Hx as (u & Hu & Hin);
    destruct (Hfree u Hin); done.
Qed.

(** C6. Under the uniqueness constraint of the spec's schema the insert
    itself fails, with the storage's constraint violation, exactly when a
    stored user holds the email or the username, and then adds no row;
    otherwise it adds the row. The check is part of the insert, made on the
    storage as it is at that moment: it keeps emails and usernames unique
    whatever was read before, and when the handler's own read found the
    email and the username free and another request stored one of them
    before the insert, the insert is still refused and no second row is
    added. *)
Theorem create_refuses_what_is_taken
    (e n h : string) (dv : jsval) (d : option string) (db : Db) :
  optional_column dv = Some d →
  (taken e n db ↔
   run (@prisma_user_create (spec_schema ids) (JStr e) (JStr n) h dv) db
   = (Thrown (Exn "PrismaClientKnownRequestError"), logged CallCreate db)) ∧
  (¬ taken e n db →
   run (@prisma_user_create (spec_schema ids) (JStr e) (JStr n) h dv) db
   = (Value (ids (rows db), e, n),
      mkDb (rows db ++ [User.mk (ids (rows db)) e n d (Some h)])
           (calls db ++ [CallCreate]))) ∧
  (taken e n db →
   rows (run (@prisma_user_create (spec_schema ids) (JStr e) (JStr n) h dv) db).2 = rows db) ∧
  (unique_rows (rows db) →
   unique_rows (rows (run (@prisma_user_create (spec_schema ids) (JStr e) (JStr n) h dv) db).2)) ∧
  (∀ (concurrent : Eff Db unit) (o : obj) (s p : string) (db0 : Db),
     well_formed o e n p d →
     find (clashes e n) (rows db0) = None →
     run concurrent (logged CallFindFirst db0) = (Value tt, db) →
     taken e n db →
     rows (run (@POST_with _ (spec_schema ids) concurrent
                 (mkRequest (BodyObject o) s)) db0).2
     = rows db).
Proof.
  intros Hd.
  assert (taken e n db →
          run (@prisma_user_create (spec_schema ids) (JStr e) (JStr n) h dv) db
          = (Thrown (Exn "PrismaClientKnownRequestError"), logged CallCreate db))
    as Hrefused.
  { intros Htaken.
    exact (@prisma_user_create_taken (spec_schema ids) e n h dv d db Hd Htaken). }
  assert (¬ taken e n db →
          run (@prisma_user_create (spec_schema ids) (JStr e) (JStr n) h dv) db
          = (Value (ids (rows db), e, n),
             mkDb (rows db ++ [User.mk (ids (rows db)) e n d (Some h)])
                  (calls db ++ [CallCreate]))) as Hadded.
  { intros Hfree.
    apply (@prisma_user_create_fresh (spec_schema ids) e n h dv d db Hd).
    destruct (find (clashes e n) (rows db)) as [u|] eqn:Hfind; [|done].
    destruct Hfree. apply find_some in Hfind as [Hin Hu]. exists u.
    split; [by apply list_elem_of_In|].
    unfold clashes, same_email, same_username in Hu.
    apply orb_prop in Hu as [Hu|Hu]; apply bool_decide_eq_true in Hu; auto. }
  assert (taken e n db ∨ ¬ taken e n db) as Hdec.
  { destruct (find (clashes e n) (rows db)) as [u|] eqn:Hfind.
    - left. apply find_some in Hfind as [Hin Hu]. exists u.
      split; [by apply list_elem_of_In|].
      unfold clashes, same_email, same_username in Hu.
      apply orb_prop in Hu as [Hu|Hu]; apply bool_decide_eq_true in Hu; auto.
    - right. intros (u & Hu & Hclash). rewrite find_clashes_None in Hfind.
      destruct (Hfind u Hu). by destruct Hclash. }
  split; [split; [exact Hrefused|]|].
  { intros Hrun. destruct Hdec as [Htaken|Hfree]; [done|].
    rewrite (Hadded Hfree) in Hrun. done. }
  split; [exact Hadded|]. split.
  { intros Htaken. by rewrite (Hrefused Htaken). }
  split.
  { intros Hunique. destruct Hdec as [Htaken|Hfree].
    - by rewrite (Hrefused Htaken).
    - rewrite (Hadded Hfree). simpl. apply unique_rows_snoc; [done|].
      simpl. intros u Hu. split; intros Heq; apply Hfree; exists u; auto. }
  intros concurrent o s p db0 Hwf Hfind Hconc Htaken.
  rewrite (@POST_with_passes_read _ (spec_schema ids) concurrent o s e n p d db0
             Hwf Hfind).
  destruct Hwf as (_ & _ & _ & _ & _ & _ & Hd').
  rewrite run_try_catch, run_bind, Hconc, run_bind.
  pose proof (@prisma_user_create_taken (spec_schema ids) e n (bcrypt_hash p 12 s)
                (prop o "displayName") d db Hd' Htaken) as Hc.
  simpl in Hc. rewrite Hc. reflexivity.
Qed.

End InsertUnderConstraint.

(** * The timer of the registration call *)

Section Timer.




End Timer.

(** * The revised properties at concrete inputs *)

Section RevisedConcrete.
#[local] Existing Instance demo_bcrypt.
#[local] Existing Instance demo_schema.


(** C3 at alice, who is stored with a hash, at an email nobody has, and at
    the password 5. *)
Lemma non_string_password_tells_users_apart_witness :
  run (authorize_any (credentials_of (JStr "a@x.com") (JNum 5))) alice_db
  = (Thrown (Exn "Error"), logged CallFindUnique alice_db) ∧
  run (authorize_any (credentials_of (JStr "b@x.com") (JNum 5))) alice_db
  = (Value None, logged CallFindUnique alice_db).
Proof.
  apply (non_string_password_tells_users_apart alice_db "a@x.com" "b@x.com"
           "$secret123" alice_row (JNum 5)); try done.
Defined.

(** X22 at two refusals of different kinds: an unknown email on an empty
    storage, and a wrong password for alice. *)
Lemma string_rejections_are_alike_witness :
  let nobody := Some (Credentials.mk (Some "b@x.com") (Some "secret123")) in
  let wrong := Some (Credentials.mk (Some "a@x.com") (Some "guess")) in
  rejection empty_db nobody ∧ rejection alice_db wrong ∧
  (run (authorize_any (as_object nobody)) empty_db).1
  = (run (authorize_any (as_object wrong)) alice_db).1 ∧
  (run (authorize_any (as_object nobody)) empty_db).1 = Value None.
Proof.
  assert (rejection empty_db
            (Some (Credentials.mk (Some "b@x.com") (Some "secret123")))) as H1
    by (by apply NoSuchUser).
  assert (rejection alice_db
            (Some (Credentials.mk (Some "a@x.com") (Some "guess")))) as H2
    by (by apply (WrongPassword _ _ _ alice_row "$secret123")).
  split; [exact H1|]. split; [exact H2|].
  exact (string_rejections_are_alike _ _ _ _ H1 H2).
Defined.

(** C6 at mallory's insert with alice's email on a storage that holds alice,
    and at the race in which alice's registration runs between mallory's
    read and mallory's insert. *)
Lemma create_refuses_what_is_taken_witness :
  taken "a@x.com" "mallory" alice_db ∧
  run (prisma_user_create (JStr "a@x.com") (JStr "mallory") "$hunter2" JUndefined)
    alice_db
  = (Thrown (Exn "PrismaClientKnownRequestError"), logged CallCreate alice_db) ∧
  rows (run (POST_with (POST (mkRequest (BodyObject alice_fields) "salt");; skip)
               (mkRequest (BodyObject (mallory_fields "hunter2")) "pepper"))
          empty_db).2
  = [alice_row].
Proof.
  assert (optional_column JUndefined = Some None) as Hd by reflexivity.
  assert (taken "a@x.com" "mallory" alice_db) as Htaken by apply alice_taken.
  split; [exact Htaken|].
  destruct (create_refuses_what_is_taken (@new_id demo_schema)
              "a@x.com" "mallory" "$hunter2" JUndefined None alice_db Hd)
    as [Hiff _].
  split; [exact (proj1 Hiff Htaken)|].
  destruct (create_refuses_what_is_taken (@new_id demo_schema)
              "a@x.com" "mallory" "$hunter2" JUndefined None
              (mkDb [alice_row] [CallFindFirst; CallFindFirst; CallCreate]) Hd)
    as (_ & _ & _ & _ & Hrace).
  assert (well_formed (mallory_fields "hunter2") "a@x.com" "mallory" "hunter2" None)
    as Hwf by (by repeat split).
  exact (Hrace (POST (mkRequest (BodyObject alice_fields) "salt");; skip)
           (mallory_fields "hunter2") "pepper" "hunter2" empty_db Hwf eq_refl eq_refl
           (alice_taken "mallory" _)).
Defined.


End RevisedConcrete.
